(** * Video merge bot: the queue handlers of [handlers/video_merge_processor.py]

    A shallow embedding of [process_merge_video], [execute_smart_merge],
    [_upload_to_telegram] and [_upload_to_rclone], and the properties of the
    merge pipeline that follow from them.

    Modelling conventions.
    - A handler is a function in a state-and-exception monad that also
      records the externally visible events it causes, in order.  A raised
      exception keeps the state changes made before it, as in Python.
    - Everything the handlers cannot decide themselves (whether a Bot API
      request raises, what ffmpeg and rclone do, the clock, the metadata
      probe, [os.path.abspath]) is read from an environment [env]; a theorem
      that quantifies over [env] holds for every behaviour of the outside
      world.  Each request in the source has its own [site], so that every
      request can fail independently of the others.
    - The file system is a finite map from paths to contents; the size of a
      file is the length of its contents.  [os.remove] of an existing file
      succeeds.
    - Exceptions are the subclasses of [Exception]; [ImportError] is kept
      apart because [_upload_to_rclone] catches it separately.
    - The clock ([time.time()]) gives binary64 floats, and a clock
      difference is their IEEE 754 difference.  A byte count divided by
      [1024 * 1024], and a sum of such quotients, is exact in binary64 (for
      less than 2^53 bytes), and is kept as an exact rational. *)

From Stdlib Require Import ZArith NArith QArith Ascii String DecimalString.
From Stdlib Require Import PrimFloat FloatOps.
From stdpp Require Import gmap strings list.

Local Open Scope Z_scope.

(** ** Strings *)

Definition NL : string := String "010"%char EmptyString.

Definition str_Z (z : Z) : string := NilEmpty.string_of_int (Z.to_int z).
Definition str_N (n : N) : string := NilEmpty.string_of_uint (N.to_uint n).

(** [s.replace(a, b)] for one-character [a] and [b]. *)
Fixpoint replace_char (a b : ascii) (s : string) : string :=
  match s with
  | EmptyString => EmptyString
  | String c r => String (if Ascii.eqb c a then b else c) (replace_char a b r)
  end.

(** [needle in s]. *)
Fixpoint contains (needle s : string) : bool :=
  String.prefix needle s ||
  match s with
  | EmptyString => false
  | String _ r => contains needle r
  end.

Fixpoint has_slash (s : string) : bool :=
  match s with
  | EmptyString => false
  | String c r => Ascii.eqb c "/" || has_slash r
  end.

(** [os.path.basename] and [os.path.join] of [posixpath]. *)
Fixpoint os_path_basename (s : string) : string :=
  match s with
  | EmptyString => EmptyString
  | String c r =>
      if has_slash r then os_path_basename r
      else if Ascii.eqb c "/" then r else s
  end.

Fixpoint ends_with_slash (s : string) : bool :=
  match s with
  | EmptyString => false
  | String c EmptyString => Ascii.eqb c "/"
  | String _ r => ends_with_slash r
  end.

Definition os_path_join (a b : string) : string :=
  if String.prefix "/" b then b
  else if String.eqb a "" || ends_with_slash a then a +:+ b
  else a +:+ "/" +:+ b.

(** The lines of a text, without their terminators ([str.splitlines] for
    line feeds). *)
Fixpoint lines (s : string) : list string :=
  match s with
  | EmptyString => []
  | String c r =>
      if Ascii.eqb c "010" then EmptyString :: lines r
      else match lines r with
           | [] => [String c EmptyString]
           | l :: ls => String c l :: ls
           end
  end.

Fixpoint no_newline (s : string) : bool :=
  match s with
  | EmptyString => true
  | String c r => negb (Ascii.eqb c "010") && no_newline r
  end.

Fixpoint has_char (a : ascii) (s : string) : bool :=
  match s with
  | EmptyString => false
  | String c r => Ascii.eqb c a || has_char a r
  end.

Definition hex_digit (n : N) : ascii :=
  default "0"%char (list_ascii_of_string "0123456789abcdef" !! N.to_nat n).

(** One character of [repr(s)] inside the quotes [quote]. *)
Definition repr_char (quote c : ascii) : string :=
  if Ascii.eqb c quote || Ascii.eqb c "\" then String "\" (String c EmptyString)
  else if Ascii.eqb c "009" then "\t"
  else if Ascii.eqb c "010" then "\n"
  else if Ascii.eqb c "013" then "\r"
  else if (N_of_ascii c <? 32)%N || Ascii.eqb c "127" then
    String "\" (String "x" (String (hex_digit (N_of_ascii c / 16)%N)
                              (String (hex_digit (N_of_ascii c mod 16)%N) EmptyString)))
  else String c EmptyString.

Fixpoint repr_chars (quote : ascii) (s : string) : string :=
  match s with
  | EmptyString => EmptyString
  | String c r => repr_char quote c +:+ repr_chars quote r
  end.

(** [repr(s)] of a string: in single quotes, or in double quotes when [s] has
    a single quote and no double quote; backslashes, the quote and control
    characters are escaped.  Characters outside ASCII are taken as printable. *)
Definition repr (s : string) : string :=
  let quote := if has_char "'" s && negb (has_char "034" s) then "034"%char else "'"%char in
  String quote (repr_chars quote s +:+ String quote EmptyString).

(** ** Number formatting *)

(** [int(x)] for a float [x]: truncation toward zero.  A float is
    [(-1)^s * m * 2^e]; a clock difference is finite, and for an infinity or a
    NaN, where Python raises, the result is 0. *)
Definition int_of_float (x : PrimFloat.float) : Z :=
  match FloatOps.Prim2SF x with
  | SpecFloat.S754_finite s m e =>
      let a := Z.shiftl (Z.pos m) e in
      if s then - a else a
  | _ => 0
  end.

(** Round [n / d] to the nearest integer, ties to even ([0 <= n], [0 < d]). *)
Definition round_half_even (n d : Z) : Z :=
  let q := n / d in
  let r := n mod d in
  match 2 * r ?= d with
  | Lt => q
  | Gt => q + 1
  | Eq => if Z.even q then q else q + 1
  end.

Definition two_digits (z : Z) : string :=
  if z <? 10 then "0" +:+ str_Z z else str_Z z.

(** [f"{x:.2f}"]. *)
Definition format_2f (x : Q) : string :=
  let h := round_half_even (100 * Z.abs (Qnum x)) (Z.pos (Qden x)) in
  (if Qnum x <? 0 then "-" else "") +:+
  str_Z (h / 100) +:+ "." +:+ two_digits (h mod 100).

(** [n / (1024 * 1024)] for a byte count [n]. *)
Definition MiB (n : N) : Q := Z.of_N n # 1048576.

(** ** Data *)

(** Exceptions; [str_exn] is [str(e)]. *)
Inductive exn :=
  | ImportError (msg : string)
  | Exception (msg : string).

Definition str_exn (e : exn) : string :=
  match e with ImportError m | Exception m => m end.

(** [VideoMetadata] of [handlers/video_merge_manager.py], with the fields the
    data model of the specification lists. *)
Record VideoMetadata := {
  msg_id : Z;
  file_name : string;
  file_path : string;
  duration : Q;
  size : N;
}.

Record MergeQueue := {
  videos : list VideoMetadata;
  queue_message_id : option Z;
}.

Definition MAX_QUEUE_SIZE : nat := 20.

Definition empty_queue : MergeQueue := {| videos := []; queue_message_id := None |}.

(** A chat message, as returned by the requests that create or edit one. *)
Record message := { chat : Z; message_id : Z }.

(** The fields of [update] the handlers read. *)
Record update := {
  effective_user_id : Z;          (* update.effective_user.id *)
  update_message_id : Z;          (* update.message.message_id *)
  callback_message_id : Z;        (* update.callback_query.message.message_id *)
  callback_data : string;         (* update.callback_query.data *)
}.

(** [context.user_data]: the keys these handlers touch.  [None] stands for
    an absent key and for the value [None]. *)
Record session := {
  operation : option string;                   (* user_data["operation"] *)
  upload_mode : option (gmap string string);   (* user_data.get("upload_mode") *)
  merge_mode : option bool;                    (* user_data["merge_mode"] *)
  awaiting_merge_format : option bool;         (* user_data["awaiting_merge_format"] *)
}.

(** The local variables of [execute_smart_merge] that its [except] clause
    reads. *)
Record frame := {
  status_msg : option message;
  concat_file : option string;
  output_file : option string;
}.

Record world := {
  fs : gmap string string;          (* path -> contents *)
  queues : gmap Z MergeQueue;       (* the registry behind get_or_create_queue *)
  user_data : session;
  locals : frame;
}.

Definition set_fs (f : gmap string string → gmap string string) (w : world) : world :=
  {| fs := f (fs w); queues := queues w; user_data := user_data w; locals := locals w |}.
Definition set_queues (f : gmap Z MergeQueue → gmap Z MergeQueue) (w : world) : world :=
  {| fs := fs w; queues := f (queues w); user_data := user_data w; locals := locals w |}.
Definition set_user_data (f : session → session) (w : world) : world :=
  {| fs := fs w; queues := queues w; user_data := f (user_data w); locals := locals w |}.
Definition set_locals (f : frame → frame) (w : world) : world :=
  {| fs := fs w; queues := queues w; user_data := user_data w; locals := f (locals w) |}.

(** ** Events *)

Definition keyboard := list (list (string * string)).   (* rows of (label, callback_data) *)

(** Requests to the chat transport. *)
Inductive call :=
  | answer (text : string) (show_alert : bool)                    (* query.answer *)
  | edit_message_text (text : string) (markup : option keyboard)  (* query.edit_message_text *)
  | send_message (chat_id : Z) (text : string)                    (* context.bot.send_message *)
  | edit_text (msg : message) (text : string)                     (* status_msg.edit_text *)
  | delete_msg (msg : message)                                    (* status_msg.delete *)
  | reply_text (text : string) (reply_to : option Z) (markup : option keyboard)
  | delete_message (chat_id : Z) (msg : Z)                        (* context.bot.delete_message *)
  | send_document (chat_id : Z) (document : string) (caption : string)
  | send_video (chat_id : Z) (video : string) (caption : string)
  | merge_menu (edit : bool).                                     (* show_merge_menu *)

(** The places of the source where the outside world decides the outcome. *)
Inductive site :=
  (* process_merge_video *)
  | reply_not_found         (* line 25 *)
  | reply_cannot_read       (* line 43 *)
  | reply_first_summary     (* line 64 *)
  | delete_old_summary      (* line 72 *)
  | reply_fresh_summary     (* line 80 *)
  | reply_queue_full        (* line 86 *)
  | reply_error             (* line 95 *)
  (* execute_smart_merge *)
  | answer_no_mode          (* line 107 *)
  | answer_no_format        (* line 112 *)
  | answer_too_few          (* line 117 *)
  | edit_progress_0         (* line 129 *)
  | send_progress_0         (* line 137 *)
  | open_manifest           (* line 148 *)
  | edit_progress_5         (* line 158 *)
  | edit_merge_failed       (* line 202 *)
  | edit_corrupted          (* line 223 *)
  | edit_progress_95        (* line 243 *)
  | edit_invalid_mode       (* line 267 *)
  | edit_merge_error        (* line 283 *)
  | send_merge_error        (* line 285 *)
  (* _upload_to_telegram *)
  | upload_document         (* line 307 *)
  | upload_video            (* line 317 *)
  | delete_status           (* line 327 *)
  (* _upload_to_rclone *)
  | import_rclone           (* line 336 *)
  | edit_rclone_done        (* line 343 *)
  | edit_rclone_failed      (* line 358 *)
  | edit_rclone_missing     (* line 367 *)
  | edit_rclone_error       (* line 376 *)
  (* video_merge_callbacks.py: handle_merge_callbacks, _show_rename_options *)
  | show_menu               (* lines 19, 22, 42, 75 *)
  | edit_add_prompt         (* line 28 *)
  | answer_cleared          (* line 41 *)
  | answer_confirm_too_few  (* line 47 *)
  | answer_confirm_no_mode  (* line 52 *)
  | edit_format_choice      (* line 58 *)
  | answer_callback_error   (* line 79 *)
  | edit_rename_options.    (* line 84 *)

#[export] Instance site_eq_dec : EqDecision site.
Proof. solve_decision. Defined.

Inductive level := INFO | WARNING | ERROR.

(** [subprocess.run(cmd, capture_output=True, text=True, timeout=3600)]. *)
Record ffmpeg_run := {
  ff_raises : option exn;          (* TimeoutExpired, FileNotFoundError, ... *)
  returncode : Z;
  stderr : string;
  ff_output : option string;       (* what it left at the output path, if it wrote there *)
}.

(** [rclone_driver(status_msg, user_id, filepath)]; the result dictionary has
    the keys of the remote-upload capability of the specification. *)
Record rclone_run := {
  rc_raises : option exn;
  rc_success : bool;               (* result.get("success") *)
  rc_remote : option string;       (* result.get("remote") *)
  rc_error : option string;        (* result.get("error") *)
  rc_keeps_local : bool;           (* false: the local file is gone afterwards *)
}.

Inductive event :=
  | Call (s : site) (c : call) (raised : option exn)
  | Log (lvl : level) (text : string)
  | Slept
  | FileWritten (path content : string)
  | Ffmpeg (cmd : list string) (run : ffmpeg_run)
  | Rclone (msg : option message) (user : Z) (path : string) (run : rclone_run).

Inductive clock_site :=
  | clock_start             (* line 125 *)
  | clock_caption           (* lines 314, 324 *)
  | clock_rclone.           (* line 348 *)

Record env := {
  api : site → option exn;          (* None: the request at that site succeeds *)
  new_message_id : site → Z;        (* id of the message a successful request creates *)
  time_time : clock_site → PrimFloat.float;   (* time.time() *)
  ffmpeg : ffmpeg_run;
  rclone_driver : rclone_run;
  probe : exn + Q * N;              (* VideoMetadata(...): raises, or duration and size *)
  os_path_abspath : string → string;
}.

(** ** The monad *)

Definition M (A : Type) : Type := world → (exn + A) * world * list event.

Definition M_ret {A} (a : A) : M A := λ w, (inr a, w, []).

Definition M_bind {A B} (m : M A) (k : A → M B) : M B := λ w,
  match m w with
  | (inr a, w1, t1) => let '(r, w2, t2) := k a w1 in (r, w2, t1 ++ t2)
  | (inl e, w1, t1) => (inl e, w1, t1)
  end.

Declare Scope M_scope.
Delimit Scope M_scope with M.
Bind Scope M_scope with M.
Notation "'let*' x := m 'in' k" := (M_bind m (λ x, k))
  (at level 10, x name, m at level 100, k at level 200, only parsing) : M_scope.
Notation "m ;; k" := (M_bind m (λ _, k))
  (at level 100, k at level 200, only parsing, right associativity) : M_scope.
Local Open Scope M_scope.

Definition raise {A} (e : exn) : M A := λ w, (inl e, w, []).

(** [try: m  except Exception as e: h e]. *)
Definition try_except {A} (m : M A) (h : exn → M A) : M A := λ w,
  match m w with
  | (inl e, w1, t1) => let '(r, w2, t2) := h e w1 in (r, w2, t1 ++ t2)
  | r => r
  end.

(** [try: m  except: pass]. *)
Definition try_pass (m : M ()) : M () := try_except m (λ _, M_ret ()).

Definition emit (e : event) : M () := λ w, (inr (), w, [e]).
Definition gets {A} (f : world → A) : M A := λ w, (inr (f w), w, []).
Definition modify (f : world → world) : M () := λ w, (inr (), f w, []).

Definition log (lvl : level) (text : string) : M () := emit (Log lvl text).

(** [try: m  except Exception as e: logger.<lvl>(f"<what>{e}")]. *)
Definition try_log (m : M ()) (lvl : level) (what : string) : M () :=
  try_except m (λ e, log lvl (what +:+ str_exn e)).

(** A request at site [s]: recorded, then it raises or returns. *)
Definition request (E : env) (s : site) (c : call) : M () :=
  emit (Call s c (api E s));;
  match api E s with
  | Some e => raise e
  | None => M_ret ()
  end.

(** ** The operating system *)

Definition os_path_exists (p : string) : M bool :=
  gets (λ w, match fs w !! p with Some _ => true | None => false end).

Definition os_remove (p : string) : M () :=
  let* present := os_path_exists p in
  if present then modify (set_fs (delete p))
  else raise (Exception ("[Errno 2] No such file or directory: " +:+ repr p)).

Definition getsize (m : gmap string string) (p : string) : exn + N :=
  match m !! p with
  | Some c => inr (N.of_nat (String.length c))
  | None => inl (Exception ("[Errno 2] No such file or directory: " +:+ repr p))
  end.

Definition os_path_getsize (p : string) : M N := λ w, (getsize (fs w) p, w, []).

(** [if p and os.path.exists(p): os.remove(p)], for a local [p] that may
    still be [None]. *)
Definition remove_if_exists (p : option string) : M () :=
  match p with
  | Some p =>
      if String.eqb p "" then M_ret ()
      else let* present := os_path_exists p in
           if present then os_remove p else M_ret ()
  | None => M_ret ()
  end.

(** ** The merge queue

    [handlers/video_merge_manager.py] is not part of the sources at hand; its
    operations follow the component design of the specification. *)

Definition queue_of (user_id : Z) (w : world) : MergeQueue :=
  default empty_queue (queues w !! user_id).

(** Modelled from the spec: [get_or_create_queue] of the absent
    [video_merge_manager]; it returns the existing queue or creates and stores
    an empty one.  The returned object is the registry entry of [user_id]. *)
Definition ensure_queue (user_id : Z) (qs : gmap Z MergeQueue) : gmap Z MergeQueue :=
  match qs !! user_id with
  | Some _ => qs
  | None => <[user_id := empty_queue]> qs
  end.

(** Modelled from the spec: [get_or_create_queue], as a handler calls it; the
    registry entry is there afterwards. *)
Definition get_or_create_queue (user_id : Z) : M () :=
  modify (set_queues (ensure_queue user_id)).

(** Modelled from the spec: [MergeQueue.add_video] of the absent
    [video_merge_manager]; it appends if the queue holds fewer than
    [MAX_QUEUE_SIZE] videos and returns whether it did. *)
Definition add_video (queue : Z) (metadata : VideoMetadata) : M bool :=
  let* q := gets (queue_of queue) in
  if bool_decide (length (videos q) < MAX_QUEUE_SIZE)%nat then
    modify (set_queues <[queue := {| videos := videos q ++ [metadata];
                                     queue_message_id := queue_message_id q |}]>);;
    M_ret true
  else M_ret false.

Definition set_queue_message_id (queue : Z) (id : Z) : M () :=
  let* q := gets (queue_of queue) in
  modify (set_queues <[queue := {| videos := videos q; queue_message_id := Some id |}]>).

Definition delete_files (paths : list string) (m : gmap string string) : gmap string string :=
  foldr delete m paths.

(** Modelled from the spec: [MergeQueue.clear_all] of the absent
    [video_merge_manager]; it deletes every referenced file (a missing file
    is not an error), empties the sequence and clears the bound message id. *)
Definition clear_all (queue : Z) : M () :=
  let* q := gets (queue_of queue) in
  modify (set_fs (delete_files (file_path <$> videos q)));;
  modify (set_queues <[queue := empty_queue]>).

(** Modelled from the spec: [MergeQueue.get_total_duration] of the absent
    [video_merge_manager]; the sum of the durations. *)
Definition get_total_duration (q : MergeQueue) : Q :=
  foldr (λ v acc, Qplus (duration v) acc) 0%Q (videos q).

(** Modelled from the spec: the constructor of [VideoMetadata] of the absent
    [video_merge_manager]; it probes the file and fails if that fails. *)
Definition VideoMetadata_new (E : env) (msg_id : Z) (file_name file_path : string)
    : M VideoMetadata :=
  match probe E with
  | inl e => raise e
  | inr (d, n) =>
      M_ret {| msg_id := msg_id; file_name := file_name; file_path := file_path;
               duration := d; size := n |}
  end.

(** Modelled from the spec: [FileManager.delete_file] of the absent
    [utils/file_manager.py]; the file is discarded if it is there. *)
Definition delete_file (p : string) : M () := modify (set_fs (delete p)).

Definition set_operation (v : option string) : M () :=
  modify (set_user_data (λ d, {| operation := v; upload_mode := upload_mode d;
                                 merge_mode := merge_mode d;
                                 awaiting_merge_format := awaiting_merge_format d |})).
Definition set_merge_mode (v : bool) : M () :=
  modify (set_user_data (λ d, {| operation := operation d; upload_mode := upload_mode d;
                                 merge_mode := Some v;
                                 awaiting_merge_format := awaiting_merge_format d |})).
Definition set_awaiting_merge_format (v : bool) : M () :=
  modify (set_user_data (λ d, {| operation := operation d; upload_mode := upload_mode d;
                                 merge_mode := merge_mode d;
                                 awaiting_merge_format := Some v |})).

(** Truth value of an optional message id ([if queue.queue_message_id:]). *)
Definition truthy_id (o : option Z) : bool :=
  match o with
  | Some id => negb (id =? 0)
  | None => false
  end.

(** Truth value of [context.user_data.get("upload_mode")]. *)
Definition truthy_dict (o : option (gmap string string)) : bool :=
  match o with
  | Some d => negb (bool_decide (d = ∅))
  | None => false
  end.

(** ** The handlers *)

Definition RULE : string := "━━━━━━━━━━━━━━━━━━".

Definition queue_keyboard : keyboard :=
  [ [("➕ Add More", "merge_add_video")];
    [("▶️ Merge", "merge_confirm"); ("❌ Cancel", "merge_clear"); ("🔙 Back", "merge_menu")] ].

Section handlers.

(** What the handlers use of the modules that are not at hand. *)
Variable TEMP_FOLDER : string.                              (* file_manager.TEMP_FOLDER *)
Variable format_queue_message : MergeQueue → string.        (* queue.format_queue_message() *)
Variable _format_duration : Q → string.                     (* queue._format_duration(d) *)

(** [process_merge_video(update, context, filepath)], lines 18-96. *)
Definition process_merge_video (E : env) (update : update) (filepath : string) : M () :=
  try_except
    (let user_id := effective_user_id update in
     get_or_create_queue user_id;;
     let queue := user_id in
     let* present := os_path_exists filepath in
     if negb present then
       request E reply_not_found
         (reply_text "❌ File not found" (Some (update_message_id update)) None);;
       set_operation None
     else
       (* Extract metadata *)
       let* metadata :=
         try_except
           (let* md := VideoMetadata_new E (update_message_id update)
                         (os_path_basename filepath) filepath in
            M_ret (Some md))
           (λ e,
            log ERROR ("Error extracting metadata: " +:+ str_exn e);;
            request E reply_cannot_read
              (reply_text ("❌ Cannot read video file: " +:+ str_exn e) None None);;
            delete_file filepath;;
            set_operation None;;
            M_ret None) in
       match metadata with
       | None => M_ret ()       (* the [return] of line 48 *)
       | Some metadata =>
           (* Add to queue *)
           let* added := add_video queue metadata in
           (if added then
              let* q := gets (queue_of queue) in
              let queue_text :=
                "✅ Video added!" +:+ NL +:+ NL +:+ format_queue_message q +:+ NL +:+ NL +:+
                "Add more videos or start merge?" in
              if bool_decide (length (videos q) = 1%nat) then
                request E reply_first_summary
                  (reply_text queue_text None (Some queue_keyboard));;
                set_queue_message_id queue (new_message_id E reply_first_summary)
              else
                (match queue_message_id q with
                 | Some id =>
                     if truthy_id (Some id) then
                       try_log
                         (request E delete_old_summary (delete_message user_id id))
                         WARNING "Could not delete old message: "
                     else M_ret ()
                 | None => M_ret ()
                 end);;
                (* Send fresh message *)
                request E reply_fresh_summary
                  (reply_text queue_text None (Some queue_keyboard));;
                set_queue_message_id queue (new_message_id E reply_fresh_summary)
            else
              request E reply_queue_full
                (reply_text ("❌ Cannot add video to queue" +:+ NL +:+ "Max 20 videos per merge")
                   None None));;
           set_operation None
       end)
    (λ e,
     log ERROR ("Error processing merge video: " +:+ str_exn e);;
     request E reply_error (reply_text ("❌ Error: " +:+ str_exn e) None None);;
     set_operation None).

(** *** Status texts of the pipeline *)

Definition text_progress_0 : string :=
  "🔀 MERGING VIDEOS" +:+ NL +:+ RULE +:+ NL +:+ NL +:+
  "⏳ Stage 1: Preparing Files" +:+ NL +:+
  "📊 Progress: 0%".

Definition text_progress_5 (total_size_mb : Q) : string :=
  "🔀 MERGING VIDEOS" +:+ NL +:+ RULE +:+ NL +:+ NL +:+
  "✅ Stage 1: Files Ready" +:+ NL +:+
  "⏳ Stage 2: Merging (FAST - Stream Copy)" +:+ NL +:+ NL +:+
  "📊 Progress: 5%" +:+ NL +:+
  "📁 Total Size: " +:+ format_2f total_size_mb +:+ "MB" +:+ NL +:+
  "⏱️ ETA: Calculating...".

Definition text_merge_failed : string :=
  "❌ MERGE FAILED" +:+ NL +:+ RULE +:+ NL +:+ NL +:+
  "Error: Check if videos have compatible formats." +:+ NL +:+
  "Try converting to same format first.".

Definition text_corrupted : string :=
  "❌ MERGE FAILED" +:+ NL +:+ RULE +:+ NL +:+ NL +:+
  "Error: Output file corrupted or empty." +:+ NL +:+
  "Ensure videos are valid MP4 files.".

Definition text_progress_95 : string :=
  "🔀 MERGING VIDEOS" +:+ NL +:+ RULE +:+ NL +:+ NL +:+
  "✅ Stage 1: Files Ready" +:+ NL +:+
  "✅ Stage 2: Merge Complete" +:+ NL +:+
  "⏳ Stage 3: Uploading" +:+ NL +:+ NL +:+
  "📊 Progress: 95%".

Definition caption (icon : string) (file_size_mb : Q) (q : MergeQueue)
    (elapsed : PrimFloat.float) : string :=
  "✅ MERGE COMPLETE!" +:+ NL +:+ RULE +:+ NL +:+ NL +:+
  icon +:+ " merged_video.mp4" +:+ NL +:+
  "📊 Size: " +:+ format_2f file_size_mb +:+ "MB" +:+ NL +:+
  "⏱️ Duration: " +:+ _format_duration (get_total_duration q) +:+ NL +:+ NL +:+
  "⏲️ Processing time: " +:+ str_Z (int_of_float elapsed) +:+ "s".

Definition text_rclone_done (filepath : string) (remote : option string) (n : N)
    (elapsed : PrimFloat.float) : string :=
  "✅ MERGE & UPLOAD COMPLETE!" +:+ NL +:+ RULE +:+ NL +:+ NL +:+
  "📁 File: " +:+ os_path_basename filepath +:+ NL +:+
  "☁️ Remote: " +:+ default "Unknown" remote +:+ NL +:+
  "📊 Size: " +:+ format_2f (MiB n) +:+ "MB" +:+ NL +:+
  "⏱️ Total time: " +:+ str_Z (int_of_float elapsed) +:+ "s".

(** A request on a message held in a variable that may still be [None]. *)
Definition on_message (E : env) (s : site) (m : option message) (attr : string)
    (c : message → call) : M () :=
  match m with
  | Some m => request E s (c m)
  | None => raise (Exception ("'NoneType' object has no attribute '" +:+ attr +:+ "'"))
  end.

(** [open(filepath, 'rb')]. *)
Definition open_rb (p : string) : M () :=
  let* present := os_path_exists p in
  if present then M_ret ()
  else raise (Exception ("[Errno 2] No such file or directory: " +:+ repr p)).

(** [_upload_to_telegram], lines 302-330.  [queue] is the registry key of the
    queue object. *)
Definition _upload_to_telegram (E : env) (user_id : Z) (filepath : string)
    (file_size_mb : Q) (queue : Z) (start_time : PrimFloat.float)
    (status_msg : option message)
    (upload_as_document : bool) : M () :=
  try_except
    (open_rb filepath;;
     let* q := gets (queue_of queue) in
     (if upload_as_document then
        request E upload_document
          (send_document user_id filepath
             (caption "📁" file_size_mb q
                (PrimFloat.sub (time_time E clock_caption) start_time)))
      else
        request E upload_video
          (send_video user_id filepath
             (caption "📹" file_size_mb q
                (PrimFloat.sub (time_time E clock_caption) start_time))));;
     on_message E delete_status status_msg "delete" delete_msg)
    (λ e,
     log ERROR ("Telegram upload error: " +:+ str_exn e);;
     raise e).

(** [rclone_driver(status_msg, user_id, filepath)] of the absent
    [handlers/rclone_upload.py]: a black box whose behaviour is [rclone_driver E]. *)
Definition run_rclone (E : env) (status_msg : option message) (user_id : Z)
    (filepath : string) : M rclone_run :=
  emit (Rclone status_msg user_id filepath (rclone_driver E));;
  (if rc_keeps_local (rclone_driver E) then M_ret ()
   else modify (set_fs (delete filepath)));;
  match rc_raises (rclone_driver E) with
  | Some e => raise e
  | None => M_ret (rclone_driver E)
  end.

(** [_upload_to_rclone], lines 333-378. *)
Definition _upload_to_rclone (E : env) (user_id : Z) (filepath : string) (queue : Z)
    (start_time : PrimFloat.float) (status_msg : option message) : M () :=
  try_except
    (match api E import_rclone with
     | Some e => raise e
     | None => M_ret ()
     end;;
     let* result := run_rclone E status_msg user_id filepath in
     if rc_success result then
       (* Update final message with completion info *)
       try_pass
         (let* n := os_path_getsize filepath in
          on_message E edit_rclone_done status_msg "edit_text"
            (λ m, edit_text m
                    (text_rclone_done filepath (rc_remote result) n
                       (PrimFloat.sub (time_time E clock_rclone) start_time))));;
       log INFO ("Rclone upload successful for user " +:+ str_Z user_id)
     else
       let error_msg := default "Unknown error" (rc_error result) in
       log ERROR ("Rclone upload failed: " +:+ error_msg);;
       try_pass
         (on_message E edit_rclone_failed status_msg "edit_text"
            (λ m, edit_text m ("❌ Rclone upload failed:" +:+ NL +:+ error_msg))))
    (λ e,
     match e with
     | ImportError _ =>
         log ERROR ("Rclone module import error: " +:+ str_exn e);;
         try_pass
           (on_message E edit_rclone_missing status_msg "edit_text"
              (λ m, edit_text m
                      ("❌ Rclone handler not found." +:+ NL +:+
                       "Please ensure rclone module is installed.")))
     | Exception _ =>
         log ERROR ("Rclone upload error: " +:+ str_exn e);;
         try_pass
           (on_message E edit_rclone_error status_msg "edit_text"
              (λ m, edit_text m ("❌ Rclone upload failed: " +:+ str_exn e)))
     end).

(** *** The merge pipeline *)

Definition manifest_line (E : env) (video : VideoMetadata) : string :=
  let abs_path := replace_char "\" "/" (os_path_abspath E (file_path video)) in
  "file '" +:+ abs_path +:+ "'" +:+ NL.

(** What the loop of lines 149-151 has written when the file is closed. *)
Definition manifest_text (E : env) (vs : list VideoMetadata) : string :=
  fold_left (λ written video, written +:+ manifest_line E video) vs "".

(** Lines 148-151: [with open(concat_file, "w", encoding="utf-8") as f: ...]. *)
Definition write_manifest (E : env) (concat_file : string) (vs : list VideoMetadata) : M () :=
  match api E open_manifest with
  | Some e => raise e
  | None =>
      modify (set_fs <[concat_file := manifest_text E vs]>);;
      emit (FileWritten concat_file (manifest_text E vs))
  end.

(** Line 153: [sum(os.path.getsize(v.file_path) / (1024 * 1024) for v in queue.videos)]. *)
Fixpoint sum_sizes_mb (m : gmap string string) (vs : list VideoMetadata) (acc : Q) : exn + Q :=
  match vs with
  | [] => inr acc
  | v :: vs =>
      match getsize m (file_path v) with
      | inl e => inl e
      | inr n => sum_sizes_mb m vs (acc + MiB n)%Q
      end
  end.

Definition ffmpeg_cmd (concat_file output_file : string) : list string :=
  [ "ffmpeg"; "-y"; "-hide_banner"; "-loglevel"; "error"; "-f"; "concat"; "-safe"; "0";
    "-fflags"; "+genpts"; "-i"; concat_file; "-map"; "0:v:0"; "-map"; "0:a?";
    "-c"; "copy"; "-movflags"; "+faststart"; output_file ].

(** Lines 186-194: the subprocess, run to completion.  The output path is the
    last argument of the command. *)
Definition run_ffmpeg (E : env) (cmd : list string) : M ffmpeg_run :=
  emit (Ffmpeg cmd (ffmpeg E));;
  match ff_output (ffmpeg E), last cmd with
  | Some c, Some output => modify (set_fs <[output := c]>)
  | _, _ => M_ret ()
  end;;
  match ff_raises (ffmpeg E) with
  | Some e => raise e
  | None => M_ret (ffmpeg E)
  end.

Definition assign_status_msg (m : message) : M () :=
  modify (set_locals (λ l, {| status_msg := Some m; concat_file := concat_file l;
                              output_file := output_file l |})).
Definition assign_concat_file (p : string) : M () :=
  modify (set_locals (λ l, {| status_msg := status_msg l; concat_file := Some p;
                              output_file := output_file l |})).
Definition assign_output_file (p : string) : M () :=
  modify (set_locals (λ l, {| status_msg := status_msg l; concat_file := concat_file l;
                              output_file := Some p |})).

Definition status_edit_text (E : env) (s : site) (text : string) : M () :=
  let* status_msg := gets (λ w, status_msg (locals w)) in
  on_message E s status_msg "edit_text" (λ m, edit_text m text).

Definition remove_local (var : frame → option string) : M () :=
  let* p := gets (λ w, var (locals w)) in
  remove_if_exists p.

(** The cleanup blocks of lines 211-217, 231-237, 271-277 and 293-299:
    [try: <remove a if it exists>; <remove b if it exists>  except: pass]. *)
Definition remove_locals (a b : frame → option string) : M () :=
  try_pass (remove_local a;; remove_local b).

(** The body of the [try] statement of [execute_smart_merge], lines 125-277. *)
Definition merge_try (E : env) (update : update) (upload_mode : gmap string string) : M () :=
  let user_id := effective_user_id update in
  let queue := user_id in
  let start_time := time_time E clock_start in
  try_except
    (request E edit_progress_0 (edit_message_text text_progress_0 None);;
     assign_status_msg {| chat := user_id; message_id := callback_message_id update |})
    (λ e,
     log ERROR ("Could not edit message: " +:+ str_exn e);;
     (* Fallback: create new message if edit fails *)
     request E send_progress_0 (send_message user_id text_progress_0);;
     assign_status_msg {| chat := user_id; message_id := new_message_id E send_progress_0 |});;
  emit Slept;;
  (* Stage 1: Create concat file *)
  let concat := os_path_join TEMP_FOLDER "concat_list.txt" in
  assign_concat_file concat;;
  let* q := gets (queue_of queue) in
  write_manifest E concat (videos q);;
  let* total_size_mb := (λ w, (sum_sizes_mb (fs w) (videos q) 0%Q, w, [])) in
  (* line 154, [total_duration = queue.get_total_duration()], has no effect *)
  let output := os_path_join TEMP_FOLDER "merged_video.mp4" in
  assign_output_file output;;
  try_log (status_edit_text E edit_progress_5 (text_progress_5 total_size_mb))
    WARNING "Could not update status: ";;
  let cmd := ffmpeg_cmd concat output in
  let* process_result := run_ffmpeg E cmd in
  (* Check if merge succeeded *)
  if negb (returncode process_result =? 0) then
    log ERROR ("FFmpeg merge failed with return code: " +:+ str_Z (returncode process_result));;
    log ERROR ("FFmpeg stderr: " +:+ stderr process_result);;
    try_pass (status_edit_text E edit_merge_failed text_merge_failed);;
    (* Cleanup *)
    remove_locals concat_file output_file
  else
    let* present := os_path_exists output in
    let* too_small :=
      if negb present then M_ret true
      else let* n := os_path_getsize output in M_ret (n <? 1024)%N in
    if too_small then
      log ERROR ("Output file missing or too small: " +:+ output);;
      try_pass (status_edit_text E edit_corrupted text_corrupted);;
      remove_locals output_file concat_file
    else
      let* n := os_path_getsize output in
      let file_size_mb := MiB n in
      try_pass (status_edit_text E edit_progress_95 text_progress_95);;
      let upload_engine := default "telegram" (upload_mode !! "engine") in
      let* status_msg := gets (λ w, status_msg (locals w)) in
      (if String.eqb upload_engine "telegram" then
         let upload_as_document :=
           bool_decide (upload_mode !! "format" = Some "document") in
         _upload_to_telegram E user_id output file_size_mb queue start_time status_msg
           upload_as_document
       else if String.eqb upload_engine "rclone" then
         _upload_to_rclone E user_id output queue start_time status_msg
       else
         log ERROR ("Unknown upload engine: " +:+ upload_engine);;
         status_edit_text E edit_invalid_mode "❌ Invalid upload mode configured");;
      (* Cleanup *)
      clear_all queue;;
      remove_locals output_file concat_file.

(** The [except Exception as e] clause of [execute_smart_merge], lines 279-299. *)
Definition merge_except (E : env) (update : update) (e : exn) : M () :=
  let user_id := effective_user_id update in
  log ERROR ("Error executing merge: " +:+ str_exn e);;
  try_log
    (let* status_msg := gets (λ w, status_msg (locals w)) in
     match status_msg with
     | Some m => request E edit_merge_error (edit_text m ("❌ Merge error: " +:+ str_exn e))
     | None => request E send_merge_error (send_message user_id ("❌ Merge error: " +:+ str_exn e))
     end)
    ERROR "Could not send error message: ";;
  (* Cleanup on error *)
  remove_locals concat_file output_file.

(** [execute_smart_merge(update, context)], lines 99-299. *)
Definition execute_smart_merge (E : env) (update : update) : M () :=
  let user_id := effective_user_id update in
  get_or_create_queue user_id;;
  let queue := user_id in
  let* upload_mode := gets (λ w, upload_mode (user_data w)) in
  if negb (truthy_dict upload_mode) then
    request E answer_no_mode (answer "❌ Please select Upload Mode first!" true);;
    log WARNING ("User " +:+ str_Z user_id +:+ " attempted merge without selecting upload mode")
  else
    let upload_mode := default ∅ upload_mode in
    if bool_decide (upload_mode !! "engine" = Some "telegram")
       && bool_decide (upload_mode !! "format" = None) then
      request E answer_no_format (answer "❌ Please select format (Video/Document)!" true);;
      log WARNING ("User " +:+ str_Z user_id +:+
                   " attempted merge without selecting Telegram format")
    else
      let* q := gets (queue_of queue) in
      if bool_decide (length (videos q) < 2)%nat then
        request E answer_too_few (answer "Need at least 2 videos!" true)
      else
        modify (set_locals (λ _, {| status_msg := None; concat_file := None;
                                    output_file := None |}));;
        try_except (merge_try E update upload_mode) (merge_except E update).

(** *** The callback handlers of [handlers/video_merge_callbacks.py] *)

(** [show_merge_menu(update, context, edit=True)] of the absent
    [video_merge_manager]: a black box that renders the menu, and may raise.
    Modelled from the spec: the first menu view creates the user's queue. *)
Definition show_merge_menu (E : env) (update : update) (edit : bool) : M () :=
  get_or_create_queue (effective_user_id update);;
  request E show_menu (merge_menu edit).



Definition text_rename_options : string :=
  "📝 FILENAME SELECTION" +:+ NL +:+ RULE +:+ NL +:+ NL +:+
  "How would you like to name the merged file?" +:+ NL +:+ NL +:+
  "📌 Default: merged_video.mp4" +:+ NL +:+
  "✏️ Rename: Choose a custom name".

Definition rename_keyboard : keyboard :=
  [ [("📌 Default", "merge_use_default"); ("✏️ Rename", "merge_ask_rename")];
    [("⬅️ Back", "merge_confirm_back"); ("❌ Cancel", "merge_menu")] ].

(** [_show_rename_options(query, user_id)], lines 82-100. *)
Definition _show_rename_options (E : env) (user_id : Z) : M () :=
  request E edit_rename_options (edit_message_text text_rename_options (Some rename_keyboard));;
  log INFO ("User " +:+ str_Z user_id +:+ " shown rename options").

(** [get_telegram_format_keyboard()] of the absent [keyboards/main_keyboard.py]. *)
Variable telegram_format_keyboard : keyboard.


End handlers.

(** ** Observations *)

(** The entry checks of [execute_smart_merge], lines 105-118: [true] when
    none of the three rejects. *)
Definition passes_entry_checks (user_id : Z) (w : world) : bool :=
  truthy_dict (upload_mode (user_data w)) &&
  negb (bool_decide (default ∅ (upload_mode (user_data w)) !! "engine" = Some "telegram")
        && bool_decide (default ∅ (upload_mode (user_data w)) !! "format" = None)) &&
  negb (bool_decide (length (videos (queue_of user_id w)) < 2)%nat).

(** Files written by the handler itself, in order. *)
Fixpoint written (t : list event) : list (string * string) :=
  match t with
  | [] => []
  | FileWritten p c :: t => (p, c) :: written t
  | _ :: t => written t
  end.

(** The ffmpeg invocations, in order. *)
Fixpoint ffmpeg_runs (t : list event) : list (list string * ffmpeg_run) :=
  match t with
  | [] => []
  | Ffmpeg cmd r :: t => (cmd, r) :: ffmpeg_runs t
  | _ :: t => ffmpeg_runs t
  end.

(** The requests to the chat transport, in order, with their outcome. *)
Fixpoint calls (t : list event) : list (site * call * option exn) :=
  match t with
  | [] => []
  | Call s c r :: t => (s, c, r) :: calls t
  | _ :: t => calls t
  end.

(** The requests made at the given sites. *)
Definition calls_at (sites : list site) (t : list event) : list (site * call * option exn) :=
  filter (λ x, x.1.1 ∈ sites) (calls t).

Fixpoint logged (t : list event) : list (level * string) :=
  match t with
  | [] => []
  | Log l s :: t => (l, s) :: logged t
  | _ :: t => logged t
  end.

(** The text a request puts on the screen, if any. *)
Definition text_of (c : call) : option string :=
  match c with
  | answer s _ | edit_message_text s _ | send_message _ s | edit_text _ s
  | reply_text s _ _ | send_document _ _ s | send_video _ _ s => Some s
  | delete_msg _ | delete_message _ _ | merge_menu _ => None
  end.

(** The texts that reached the user: those of the requests that succeeded. *)
Definition shown (t : list event) : list string :=
  omap (λ x, match x with (_, c, None) => text_of c | _ => None end) (calls t).

(** What [if p and os.path.exists(p): os.remove(p)] does to the file system. *)
Definition rm (p : option string) (m : gmap string string) : gmap string string :=
  match p with
  | Some p => if String.eqb p "" then m else delete p m
  | None => m
  end.

(** The log entry of [except Exception as e: logger.<lvl>(f"<what>{e}")]. *)
Definition log_if (raised : option exn) (lvl : level) (what : string) : list event :=
  match raised with
  | Some e => [Log lvl (what +:+ str_exn e)]
  | None => []
  end.

(** The requests of a guarded [status_msg.edit_text]. *)
Definition status_calls (E : env) (s : site) (text : string) (w : world) : list event :=
  match status_msg (locals w) with
  | Some m => [Call s (edit_text m text) (api E s)]
  | None => []
  end.

(** The log entries that say a pipeline run failed: lines 198, 221 and 280. *)
Definition is_failure (entry : level * string) : bool :=
  String.prefix "FFmpeg merge failed" entry.2
  || String.prefix "Output file missing or too small" entry.2
  || String.prefix "Error executing merge" entry.2.

Fixpoint failed (t : list event) : bool :=
  match t with
  | [] => false
  | Log l s :: t => is_failure (l, s) || failed t
  | _ :: t => failed t
  end.

(** The requests made at the sites that satisfy [p], in order. *)
Fixpoint select (p : site → bool) (t : list event) : list (site * call * option exn) :=
  match t with
  | [] => []
  | Call s c r :: t => if p s then (s, c, r) :: select p t else select p t
  | _ :: t => select p t
  end.

(** The sites at which the pipeline reports progress. *)
Definition is_progress_site (s : site) : bool :=
  match s with
  | edit_progress_0 | send_progress_0 | edit_progress_5 | edit_progress_95 => true
  | _ => false
  end.

Definition is_uploading_site (s : site) : bool :=
  match s with edit_progress_95 => true | _ => false end.

Definition is_upload_site (s : site) : bool :=
  match s with upload_document | upload_video => true | _ => false end.

Definition is_delete_status_site (s : site) : bool :=
  match s with delete_status => true | _ => false end.

Definition is_rclone_site (s : site) : bool :=
  match s with
  | edit_rclone_done | edit_rclone_failed | edit_rclone_missing | edit_rclone_error => true
  | _ => false
  end.

(** The status message of a pipeline run: the message of the callback query
    when it can be edited (line 129), a new message otherwise (line 137). *)
Definition status_message (E : env) (update : update) : message :=
  {| chat := effective_user_id update;
     message_id := match api E edit_progress_0 with
                   | None => callback_message_id update
                   | Some _ => new_message_id E send_progress_0
                   end |}.




(** The requests that create the status message. *)
Definition creation_calls (E : env) (update : update) : list (site * call * option exn) :=
  match api E edit_progress_0 with
  | None => [(edit_progress_0, edit_message_text text_progress_0 None, None)]
  | Some e =>
      [(edit_progress_0, edit_message_text text_progress_0 None, Some e);
       (send_progress_0, send_message (effective_user_id update) text_progress_0,
        api E send_progress_0)]
  end.

(** The outside world [E], except that the status updates at 5% and 95%
    have the given outcomes. *)
Definition with_progress_outcomes (E : env) (o5 o95 : option exn) : env :=
  {| api := λ s, match s with
                 | edit_progress_5 => o5
                 | edit_progress_95 => o95
                 | _ => api E s
                 end;
     new_message_id := new_message_id E; time_time := time_time E; ffmpeg := ffmpeg E;
     rclone_driver := rclone_driver E; probe := probe E;
     os_path_abspath := os_path_abspath E |}.

(** What is at the output path when ffmpeg has returned. *)
Definition output_after (E : env) (output : string) (w : world) : option string :=
  match ff_output (ffmpeg E) with
  | Some c => Some c
  | None => fs w !! output
  end.

(** Whether the merge leaves an output that passes the validation of line
    220: ffmpeg has returned, with exit status 0, and the output file is there
    with at least 1024 bytes. *)
Definition output_accepted (E : env) (output : string) (w : world) : bool :=
  match ff_raises (ffmpeg E) with
  | Some _ => false
  | None =>
      (returncode (ffmpeg E) =? 0) &&
      match output_after E output w with
      | Some c => negb (N.of_nat (String.length c) <? 1024)%N
      | None => false
      end
  end.

(** What [_upload_to_rclone] leaves of the file system: [rclone_driver] may
    have moved the local file away. *)
Definition rclone_fs (E : env) (p : string) (m : gmap string string) : gmap string string :=
  match api E import_rclone with
  | Some _ => m
  | None => if rc_keeps_local (rclone_driver E) then m else delete p m
  end.

(** The events [_upload_to_rclone] causes are requests at its own sites, its
    own log entries and the call of [rclone_driver]. *)
Definition is_rclone_event (e : event) : bool :=
  match e with
  | Call s _ _ => is_rclone_site s
  | Log _ text => String.prefix "Rclone " text
  | Rclone _ _ _ _ => true
  | _ => false
  end.

(** ** Sample data *)

Definition blob (n : nat) : string := string_of_list_ascii (replicate n "x"%char).

Definition video_a : VideoMetadata :=
  {| msg_id := 11; file_name := "a.mp4"; file_path := "/data/a.mp4";
     duration := 10; size := 4 |}.
Definition video_b : VideoMetadata :=
  {| msg_id := 12; file_name := "b.mp4"; file_path := "C:\data\b.mp4";
     duration := 15; size := 6 |}.

Definition mode (engine format : option string) : gmap string string :=
  from_option (λ e, <["engine" := e]>) id engine
    (from_option (λ f, <["format" := f]>) id format ∅).

Definition no_locals : frame :=
  {| status_msg := None; concat_file := None; output_file := None |}.

Definition sample_update : update :=
  {| effective_user_id := 7; update_message_id := 100; callback_message_id := 50;
     callback_data := "merge_confirm" |}.

Definition sample_world (vs : list VideoMetadata) (um : option (gmap string string)) : world :=
  {| fs := <["/data/a.mp4" := "AAAA"]> (<["C:\data\b.mp4" := "BBBBBB"]> ∅);
     queues := <[7 := {| videos := vs; queue_message_id := Some 60 |}]>
                 (<[8 := {| videos := [video_b; video_a]; queue_message_id := None |}]> ∅);
     user_data := {| operation := Some "merge_add"; upload_mode := um;
                     merge_mode := Some true; awaiting_merge_format := None |};
     locals := no_locals |}.

Definition ffmpeg_result (rc : Z) (err : string) (out : option string) : ffmpeg_run :=
  {| ff_raises := None; returncode := rc; stderr := err; ff_output := out |}.

Definition sample_env (fails : list site) (ff : ffmpeg_run) : env :=
  {| api := λ s, if bool_decide (s ∈ fails) then Some (Exception "Forbidden: bot was blocked by the user")
                 else None;
     new_message_id := λ _, 900;
     time_time := λ c, match c with clock_start => 1000%float | _ => 1012.5%float end;
     ffmpeg := ff;
     rclone_driver := {| rc_raises := None; rc_success := true; rc_remote := Some "gdrive";
                         rc_error := None; rc_keeps_local := true |};
     probe := inr (10%Q, 4%N);
     os_path_abspath := λ p, if String.prefix "/" p || String.prefix "C:" p then p
                             else "/app/" +:+ p |}.

Definition sample_duration (d : Q) : string := format_2f d +:+ "s".
Definition sample_summary (q : MergeQueue) : string :=
  str_Z (Z.of_nat (length (videos q))) +:+ " videos".

Definition two_videos (engine format : option string) : world :=
  sample_world [video_a; video_b] (Some (mode engine format)).

Definition sample_merge (E : env) (w : world) : (exn + ()) * world * list event :=
  execute_smart_merge "temp" sample_duration E sample_update w.

(** The texts of the requests of a trace, shown or not. *)
Definition texts (t : list event) : list string := omap (λ x, text_of x.1.2) (calls t).

(** A merge of two videos that is delivered to the chat as a video. *)
Definition run_delivered : (exn + ()) * world * list event :=
  sample_merge (sample_env [] (ffmpeg_result 0 "" (Some (blob 2048))))
    (two_videos (Some "telegram") (Some "video")).

(** ffmpeg exits with status 1 and leaves a partial output. *)
Definition run_merge_failed : (exn + ()) * world * list event :=
  sample_merge
    (sample_env [] (ffmpeg_result 1 "Invalid data found when processing input"
                      (Some (blob 20))))
    (two_videos (Some "telegram") (Some "video")).

(** ffmpeg exits with status 0 and an output of 100 bytes. *)
Definition run_small_output : (exn + ()) * world * list event :=
  sample_merge (sample_env [] (ffmpeg_result 0 "" (Some (blob 100))))
    (two_videos (Some "telegram") (Some "document")).

(** ffmpeg exits with status 0 and an output of exactly 1024 bytes. *)
Definition run_1024_bytes : (exn + ()) * world * list event :=
  sample_merge (sample_env [] (ffmpeg_result 0 "" (Some (blob 1024))))
    (two_videos (Some "telegram") (Some "video")).

(** Neither the edit of the menu message nor a new message succeeds. *)
Definition run_no_status : (exn + ()) * world * list event :=
  sample_merge
    (sample_env [edit_progress_0; send_progress_0] (ffmpeg_result 0 "" (Some (blob 2048))))
    (two_videos (Some "telegram") (Some "video")).

(** The upload to the chat fails. *)
Definition run_upload_failed : (exn + ()) * world * list event :=
  sample_merge (sample_env [upload_video] (ffmpeg_result 0 "" (Some (blob 2048))))
    (two_videos (Some "telegram") (Some "video")).

(** Another user merges at the same time. *)
Definition other_update : update :=
  {| effective_user_id := 8; update_message_id := 200; callback_message_id := 70;
     callback_data := "merge_confirm" |}.

Definition run_other_user : (exn + ()) * world * list event :=
  execute_smart_merge "temp" sample_duration
    (sample_env [] (ffmpeg_result 0 "" (Some (blob 2048)))) other_update
    (two_videos (Some "rclone") None).

(** Delivery through rclone. *)
Definition run_remote : (exn + ()) * world * list event :=
  sample_merge (sample_env [] (ffmpeg_result 0 "" (Some (blob 2048))))
    (two_videos (Some "rclone") None).

(** Delivery to the chat as a document, of an output of 12 KiB. *)
Definition run_document : (exn + ()) * world * list event :=
  sample_merge (sample_env [] (ffmpeg_result 0 "" (Some (blob (12 * 1024)))))
    (two_videos (Some "telegram") (Some "document")).

(** A user who has no queue yet triggers the merge, with no upload mode
    chosen. *)
Definition new_user_update : update :=
  {| effective_user_id := 9; update_message_id := 300; callback_message_id := 80;
     callback_data := "merge_confirm" |}.

Definition run_rejected_new_user : (exn + ()) * world * list event :=
  execute_smart_merge "temp" sample_duration
    (sample_env [] (ffmpeg_result 0 "" None)) new_user_update
    (sample_world [video_a; video_b] None).

(** The status updates at 5% and 95% both fail. *)
Definition run_progress_fails : (exn + ()) * world * list event :=
  sample_merge
    (sample_env [edit_progress_5; edit_progress_95] (ffmpeg_result 0 "" (Some (blob 2048))))
    (two_videos (Some "telegram") (Some "video")).












(** * Properties *)

(** ** Symbolic execution of the handlers *)

Lemma remove_if_exists_run p w :
  remove_if_exists p w = (inr (), set_fs (rm p) w, []).
Proof.
  destruct w as [f q u l]. destruct p as [p|]; [|done].
  unfold remove_if_exists, os_remove, os_path_exists, M_bind, gets, modify, M_ret, raise,
    set_fs, rm.
  cbn. destruct (String.eqb p ""); [done|]. cbn.
  destruct (f !! p) eqn:Hp; cbn; rewrite ?Hp; [done|].
  by rewrite delete_id.
Qed.

Lemma remove_locals_run a b w :
  remove_locals a b w =
  (inr (), set_fs (λ m, rm (b (locals w)) (rm (a (locals w)) m)) w, []).
Proof.
  unfold remove_locals, try_pass, try_except, remove_local, M_bind, gets.
  rewrite remove_if_exists_run. cbn. rewrite remove_if_exists_run. by destruct w.
Qed.

Lemma try_pass_status_run E s text w :
  try_pass (status_edit_text E s text) w = (inr (), w, status_calls E s text w).
Proof.
  unfold try_pass, try_except, status_edit_text, on_message, M_bind, gets, request, emit,
    raise, M_ret, status_calls.
  cbn. destruct (status_msg (locals w)); cbn; [|done]. by destruct (api E s).
Qed.

Lemma try_log_status_run E s text lvl what w m :
  status_msg (locals w) = Some m →
  try_log (status_edit_text E s text) lvl what w =
  (inr (), w, Call s (edit_text m text) (api E s) :: log_if (api E s) lvl what).
Proof.
  intros Hm.
  unfold try_log, try_except, status_edit_text, on_message, M_bind, gets, request, log,
    emit, raise, M_ret, log_if.
  cbn. rewrite Hm. cbn. by destruct (api E s).
Qed.

Lemma rm_Some p m : String.eqb p "" = false → rm (Some p) m = delete p m.
Proof. intros H. unfold rm. by rewrite H. Qed.

Lemma os_path_join_nonempty a b : b ≠ "" → String.eqb (os_path_join a b) "" = false.
Proof.
  intros Hb. apply String.eqb_neq. unfold os_path_join.
  destruct b as [|c b]; [done|].
  repeat case_match; try done; destruct a; done.
Qed.

Lemma ensure_queue_default u qs :
  default empty_queue (ensure_queue u qs !! u) = default empty_queue (qs !! u).
Proof.
  unfold ensure_queue. destruct (qs !! u) eqn:H; [by rewrite H|].
  by rewrite lookup_insert_eq.
Qed.

Lemma ensure_queue_observed u u' qs :
  default empty_queue (ensure_queue u qs !! u') = default empty_queue (qs !! u').
Proof.
  destruct (decide (u = u')) as [->|Hne]; [apply ensure_queue_default|].
  unfold ensure_queue. destruct (qs !! u); [done|]. by rewrite lookup_insert_ne.
Qed.

Lemma ensure_queue_present u qs : is_Some (qs !! u) → ensure_queue u qs = qs.
Proof. intros [q Hq]. unfold ensure_queue. by rewrite Hq. Qed.

(** Reduction of the monad and of the operations that have no closed form
    of their own. *)
Ltac run_cbv :=
  cbv beta iota zeta delta
    [M_bind M_ret raise try_except emit gets modify log request
     os_path_exists os_remove os_path_getsize getsize on_message open_rb
     assign_status_msg assign_concat_file assign_output_file
     set_fs set_queues set_user_data set_locals set_operation set_merge_mode
     set_awaiting_merge_format set_queue_message_id
     fs queues user_data locals status_msg concat_file output_file
     operation upload_mode merge_mode awaiting_merge_format
     write_manifest run_ffmpeg ffmpeg_cmd last run_rclone clear_all get_or_create_queue
     add_video delete_file VideoMetadata_new queue_of show_merge_menu _show_rename_options
     status_calls negb];
  cbn [app fst snd].

Ltac head_step d :=
  lazymatch d with
  | match ?d' with _ => _ end => head_step d'
  | (match ?d' with _ => _ end) _ => head_step d'
  | remove_locals _ _ _ => rewrite remove_locals_run
  | try_pass (status_edit_text _ _ _) _ => rewrite try_pass_status_run
  | try_log (status_edit_text _ _ _) _ _ _ => erewrite try_log_status_run by reflexivity
  | try_log _ _ _ _ => unfold try_log at 1
  | try_pass _ _ => unfold try_pass at 1
  | status_edit_text _ _ _ _ => unfold status_edit_text at 1
  | _ =>
      lazymatch goal with
      | H : d = _ |- _ => rewrite H
      | _ => destruct d eqn:?
      end
  end.

Ltac run_step :=
  lazymatch goal with
  | |- (match ?d with _ => _ end) = _ → _ => head_step d; run_cbv
  | |- (match ?d with _ => _ end) = _ => head_step d; run_cbv
  | |- context [fst (match ?d with _ => _ end)] => head_step d; run_cbv
  | |- context [snd (match ?d with _ => _ end)] => head_step d; run_cbv
  end.

Ltac run := run_cbv; repeat run_step.

(** ** Traces *)

Lemma written_app t1 t2 : written (t1 ++ t2) = written t1 ++ written t2.
Proof. induction t1 as [|[] t1 IH]; cbn; by rewrite ?IH. Qed.

Lemma ffmpeg_runs_app t1 t2 : ffmpeg_runs (t1 ++ t2) = ffmpeg_runs t1 ++ ffmpeg_runs t2.
Proof. induction t1 as [|[] t1 IH]; cbn; by rewrite ?IH. Qed.

Lemma calls_app t1 t2 : calls (t1 ++ t2) = calls t1 ++ calls t2.
Proof. induction t1 as [|[] t1 IH]; cbn; by rewrite ?IH. Qed.

Lemma logged_app t1 t2 : logged (t1 ++ t2) = logged t1 ++ logged t2.
Proof. induction t1 as [|[] t1 IH]; cbn; by rewrite ?IH. Qed.

Lemma failed_app t1 t2 : failed (t1 ++ t2) = failed t1 || failed t2.
Proof. induction t1 as [|[] t1 IH]; cbn; by rewrite ?IH, ?orb_assoc. Qed.

Lemma prefix_head c s t :
  String.prefix (String c s) t = true → ∃ r, t = String c r.
Proof.
  destruct t as [|c' r]; cbn; [done|].
  destruct (ascii_dec c c') as [->|]; [eauto|done].
Qed.

Lemma rclone_entry_no_failure l text :
  String.prefix "Rclone " text = true → is_failure (l, text) = false.
Proof. intros [r ->]%prefix_head. reflexivity. Qed.

Lemma rclone_events_written t : forallb is_rclone_event t = true → written t = [].
Proof.
  induction t as [|e t IH]; [done|]. cbn. intros [He Ht]%andb_prop.
  destruct e; try done; by apply IH.
Qed.

Lemma rclone_events_ffmpeg t : forallb is_rclone_event t = true → ffmpeg_runs t = [].
Proof.
  induction t as [|e t IH]; [done|]. cbn. intros [He Ht]%andb_prop.
  destruct e; try done; by apply IH.
Qed.

Lemma rclone_events_failed t : forallb is_rclone_event t = true → failed t = false.
Proof.
  induction t as [|e t IH]; [done|]. cbn. intros [He Ht]%andb_prop.
  destruct e; cbn; try done; try by apply IH.
  rewrite rclone_entry_no_failure by done. by apply IH.
Qed.

(** Observations skip a guarded log entry and the events of the
    remote-storage upload. *)
Lemma written_log_if o l what t : written (log_if o l what ++ t) = written t.
Proof. by destruct o. Qed.
Lemma ffmpeg_runs_log_if o l what t : ffmpeg_runs (log_if o l what ++ t) = ffmpeg_runs t.
Proof. by destruct o. Qed.
Lemma calls_log_if o l what t : calls (log_if o l what ++ t) = calls t.
Proof. by destruct o. Qed.
Lemma failed_log_if o l what t :
  (∀ x, is_failure (l, what +:+ x) = false) →
  failed (log_if o l what ++ t) = failed t.
Proof. intros H. destruct o; cbn; [|done]. by rewrite H. Qed.

Lemma written_rclone t1 t2 :
  forallb is_rclone_event t1 = true → written (t1 ++ t2) = written t2.
Proof. intros H. by rewrite written_app, rclone_events_written. Qed.
Lemma ffmpeg_runs_rclone t1 t2 :
  forallb is_rclone_event t1 = true → ffmpeg_runs (t1 ++ t2) = ffmpeg_runs t2.
Proof. intros H. by rewrite ffmpeg_runs_app, rclone_events_ffmpeg. Qed.
Lemma failed_rclone t1 t2 :
  forallb is_rclone_event t1 = true → failed (t1 ++ t2) = failed t2.
Proof. intros H. by rewrite failed_app, rclone_events_failed. Qed.

Lemma rclone_events_select p t :
  (∀ s, is_rclone_site s = true → p s = false) →
  forallb is_rclone_event t = true → select p t = [].
Proof.
  intros Hp. induction t as [|e t IH]; [done|]. cbn. intros [He Ht]%andb_prop.
  destruct e; try by apply IH.
  rewrite Hp by done. by apply IH.
Qed.

Lemma select_app p t1 t2 : select p (t1 ++ t2) = select p t1 ++ select p t2.
Proof.
  induction t1 as [|[] t1 IH]; cbn; rewrite ?IH; try done. by destruct (p s).
Qed.

Lemma select_log_if p o l what t : select p (log_if o l what ++ t) = select p t.
Proof. by destruct o. Qed.

Lemma select_rclone p t1 t2 :
  (∀ s, is_rclone_site s = true → p s = false) →
  forallb is_rclone_event t1 = true → select p (t1 ++ t2) = select p t2.
Proof. intros Hp H. by rewrite select_app, rclone_events_select. Qed.

(** ** Files *)

Lemma delete_files_lookup paths m p : p ∈ paths → delete_files paths m !! p = None.
Proof.
  induction paths as [|p' paths IH]; cbn; [by intros ?%elem_of_nil|].
  intros [->|Hp]%elem_of_cons; [by rewrite lookup_delete_eq|].
  rewrite lookup_delete. case_decide; [done|by apply IH].
Qed.

Lemma delete_files_lookup_other paths m p : p ∉ paths → delete_files paths m !! p = m !! p.
Proof.
  induction paths as [|p' paths IH]; cbn; [done|].
  intros [Hne Hp]%not_elem_of_cons. rewrite lookup_delete_ne by done. by apply IH.
Qed.

Lemma append_inj_r a x y : a +:+ x = a +:+ y → x = y.
Proof. induction a as [|c a IH]; cbn; [done|]. intros [= H]. by apply IH. Qed.

Lemma os_path_join_distinct a :
  os_path_join a "concat_list.txt" ≠ os_path_join a "merged_video.mp4".
Proof.
  unfold os_path_join.
  change (String.prefix "/" "concat_list.txt") with false.
  change (String.prefix "/" "merged_video.mp4") with false.
  destruct (_ || _); intros H; apply append_inj_r in H; done.
Qed.

(** ** [process_merge_video] *)

Section process_merge_video.

Variable format_queue_message : MergeQueue → string.









End process_merge_video.

(** C10 (the code falls short of it).  The handler is meant to reset
    [user_data["operation"]] on every exit path, and every branch ends with
    the assignment.  In the [except] clause, however, the assignment comes
    after the error reply (lines 95-96): when that reply raises as well, for
    example because the user has blocked the bot, the handler is left through
    the exception and the flag keeps its value. *)
Theorem process_merge_video_flag_not_reset :
  let E := sample_env [reply_not_found; reply_error] (ffmpeg_result 0 "" None) in
  let w := sample_world [video_a] None in
  let r := process_merge_video sample_summary E sample_update "/data/missing.mp4" w in
  operation (user_data w) = Some "merge_add" ∧
  r.1.1 = inl (Exception "Forbidden: bot was blocked by the user") ∧
  operation (user_data r.1.2) = Some "merge_add" ∧
  calls r.2 =
    [(reply_not_found, reply_text "❌ File not found" (Some 100) None,
      Some (Exception "Forbidden: bot was blocked by the user"));
     (reply_error,
      reply_text "❌ Error: Forbidden: bot was blocked by the user" None None,
      Some (Exception "Forbidden: bot was blocked by the user"))].
Proof. vm_compute. done. Qed.

(** ** [execute_smart_merge]: the entry checks *)

Section execute_smart_merge.

Variable TEMP_FOLDER : string.
Variable _format_duration : Q → string.

Notation "'execute'" := (execute_smart_merge TEMP_FOLDER _format_duration).
Notation "'pipeline' E upd um" :=
  (try_except (merge_try TEMP_FOLDER _format_duration E upd um) (merge_except E upd))
  (at level 10, E, upd, um at level 9).

Lemma execute_entered E upd w :
  passes_entry_checks (effective_user_id upd) w = true →
  execute E upd w =
  pipeline E upd (default ∅ (upload_mode (user_data w)))
    {| fs := fs w; queues := ensure_queue (effective_user_id upd) (queues w);
       user_data := user_data w; locals := no_locals |}.
Proof.
  destruct w as [f q ud l]. unfold passes_entry_checks, execute_smart_merge, queue_of.
  cbn [queues user_data]. intros H.
  apply andb_prop in H as [H H3]. apply andb_prop in H as [H1 H2].
  apply negb_true_iff in H2, H3.
  cbv beta iota zeta delta [M_bind get_or_create_queue modify gets set_queues set_locals
    queue_of fs queues user_data locals].
  rewrite H1. cbn [negb]. rewrite H2. cbv beta iota zeta. cbn [queues].
  rewrite ensure_queue_default, H3. cbv beta iota zeta.
  destruct (try_except _ _ _) as [[r w'] t]. done.
Qed.

Lemma rejected_iff u w :
  passes_entry_checks u w = false ↔
  truthy_dict (upload_mode (user_data w)) = false
  ∨ (∃ d, upload_mode (user_data w) = Some d ∧ d !! "engine" = Some "telegram"
          ∧ d !! "format" = None)
  ∨ (length (videos (queue_of u w)) < 2)%nat.
Proof.
  unfold passes_entry_checks.
  destruct (upload_mode (user_data w)) as [d|] eqn:Hd; cbn [truthy_dict default];
    [|naive_solver].
  rewrite !andb_false_iff, !negb_false_iff, andb_true_iff, !bool_decide_eq_true.
  split.
  - intros [[H|H]|H]; [by left|right; left; eauto|by right; right].
  - intros [H|[(d' & [= <-] & H)|H]]; [by left; left|by left; right|by right].
Qed.

(** A run that fails an entry check: one alert, and nothing else. *)
Lemma merge_rejected_run E upd w :
  passes_entry_checks (effective_user_id upd) w = false →
  ∃ s text,
    s ∈ [answer_no_mode; answer_no_format; answer_too_few] ∧
    calls (execute E upd w).2 = [(s, answer text true, api E s)] ∧
    (execute E upd w).1.1 = match api E s with Some e => inl e | None => inr () end ∧
    ffmpeg_runs (execute E upd w).2 = [] ∧
    written (execute E upd w).2 = [] ∧
    fs (execute E upd w).1.2 = fs w ∧
    user_data (execute E upd w).1.2 = user_data w ∧
    locals (execute E upd w).1.2 = locals w ∧
    queues (execute E upd w).1.2 = ensure_queue (effective_user_id upd) (queues w) ∧
    (∀ u, queue_of u (execute E upd w).1.2 = queue_of u w) ∧
    (is_Some (queues w !! effective_user_id upd) → (execute E upd w).1.2 = w).
Proof.
  intros Hrej. destruct w as [f q ud l]. revert Hrej.
  unfold passes_entry_checks, execute_smart_merge, queue_of. cbn [queues user_data].
  cbv beta iota zeta delta [M_bind get_or_create_queue modify gets set_queues set_locals
    queue_of fs queues user_data locals request emit log raise M_ret].
  intros Hrej.
  assert (∀ u, default empty_queue (ensure_queue (effective_user_id upd) q !! u)
               = default empty_queue (q !! u)) as Hobs
    by (intros; apply ensure_queue_observed).
  assert (is_Some (q !! effective_user_id upd) →
          {| fs := f; queues := ensure_queue (effective_user_id upd) q; user_data := ud;
             locals := l |} = {| fs := f; queues := q; user_data := ud; locals := l |})
    as Hsame by (intros Hq; by rewrite ensure_queue_present).
  destruct (truthy_dict (upload_mode ud)); cbn [negb andb] in *.
  - destruct (bool_decide _ && bool_decide _); cbn [negb andb] in *.
    + exists answer_no_format, "❌ Please select format (Video/Document)!".
      destruct (api E answer_no_format); cbn; split_and!; try done; set_solver.
    + cbv beta iota zeta. cbn [queues]. rewrite ensure_queue_default.
      apply negb_false_iff in Hrej. rewrite Hrej.
      exists answer_too_few, "Need at least 2 videos!".
      destruct (api E answer_too_few); cbn; split_and!; try done; set_solver.
  - exists answer_no_mode, "❌ Please select Upload Mode first!".
    destruct (api E answer_no_mode); cbn; split_and!; try done; set_solver.
Qed.

(** C2, as the code has it.  When the upload mode is unset, or the engine is
    "telegram" and no format is set, or fewer than two videos are queued,
    [execute_smart_merge] makes one request, the alert that rejects the
    merge: ffmpeg is not run, no file is written, and the file system, the
    session data and the contents of every queue are as before.  The
    registry is changed in one case: [get_or_create_queue] is called before
    the checks (line 103), so a user who had no queue has an empty one
    afterwards.  The final state is the initial one with exactly that
    change, and is the initial state for a user who has a queue. *)
Theorem merge_rejected_without_effect E upd w :
  upload_mode (user_data w) = None
  ∨ (∃ d, upload_mode (user_data w) = Some d ∧ d !! "engine" = Some "telegram"
          ∧ d !! "format" = None)
  ∨ (length (videos (queue_of (effective_user_id upd) w)) < 2)%nat →
  ∃ s text,
    s ∈ [answer_no_mode; answer_no_format; answer_too_few] ∧
    calls (execute E upd w).2 = [(s, answer text true, api E s)] ∧
    (execute E upd w).1.1 = match api E s with Some e => inl e | None => inr () end ∧
    ffmpeg_runs (execute E upd w).2 = [] ∧
    written (execute E upd w).2 = [] ∧
    fs (execute E upd w).1.2 = fs w ∧
    user_data (execute E upd w).1.2 = user_data w ∧
    locals (execute E upd w).1.2 = locals w ∧
    queues (execute E upd w).1.2 = ensure_queue (effective_user_id upd) (queues w) ∧
    (∀ u, queue_of u (execute E upd w).1.2 = queue_of u w) ∧
    (is_Some (queues w !! effective_user_id upd) → (execute E upd w).1.2 = w).
Proof.
  intros H. apply merge_rejected_run, rejected_iff.
  destruct H as [H|H]; [left; by rewrite H|by right].
Qed.

(** ** The pipeline, stage by stage *)

Lemma merge_except_run E upd e w :
  merge_except E upd e w =
  (inr (),
   set_fs (λ m, rm (output_file (locals w)) (rm (concat_file (locals w)) m)) w,
   Log ERROR ("Error executing merge: " +:+ str_exn e) ::
   match status_msg (locals w) with
   | Some m =>
       Call edit_merge_error (edit_text m ("❌ Merge error: " +:+ str_exn e))
         (api E edit_merge_error) ::
       log_if (api E edit_merge_error) ERROR "Could not send error message: "
   | None =>
       Call send_merge_error
         (send_message (effective_user_id upd) ("❌ Merge error: " +:+ str_exn e))
         (api E send_merge_error) ::
       log_if (api E send_merge_error) ERROR "Could not send error message: "
   end).
Proof.
  destruct w as [f q ud [sm cf outf]]. unfold merge_except, try_log, log_if.
  run_cbv. destruct sm; run_cbv.
  - destruct (api E edit_merge_error); run_cbv; by rewrite remove_locals_run.
  - destruct (api E send_merge_error); run_cbv; by rewrite remove_locals_run.
Qed.

Lemma upload_to_rclone_run E u p queue st sm w :
  _upload_to_rclone E u p queue st sm w =
  (inr (), set_fs (rclone_fs E p) w, (_upload_to_rclone E u p queue st sm w).2).
Proof.
  destruct w as [f q ud l]. unfold _upload_to_rclone, rclone_fs, try_pass.
  run. all: try reflexivity.
Qed.

Lemma upload_to_rclone_events E u p queue st sm w :
  forallb is_rclone_event (_upload_to_rclone E u p queue st sm w).2 = true.
Proof.
  destruct w as [f q ud l]. unfold _upload_to_rclone, try_pass.
  run. all: try reflexivity.
Qed.

Ltac pipe_head d :=
  lazymatch d with
  | match ?d' with _ => _ end => pipe_head d'
  | (match ?d' with _ => _ end) _ => pipe_head d'
  | merge_except _ _ _ _ => rewrite merge_except_run
  | _upload_to_rclone _ _ _ _ _ _ _ => rewrite upload_to_rclone_run
  | _ => head_step d
  end.

Ltac pipe_step :=
  lazymatch goal with
  | |- (match ?d with _ => _ end) = _ → _ => pipe_head d; run_cbv
  end.

(** Runs the pipeline from the start of the [try] statement; the two paths
    become [cp] and [op]. *)
Ltac pipeline_run_with known :=
  unfold merge_try, _upload_to_telegram, no_locals;
  pose proof (os_path_join_nonempty TEMP_FOLDER "concat_list.txt" ltac:(done)) as Hcp;
  pose proof (os_path_join_nonempty TEMP_FOLDER "merged_video.mp4" ltac:(done)) as Hop;
  pose proof (os_path_join_distinct TEMP_FOLDER) as Hne;
  revert Hcp Hop Hne;
  generalize (os_path_join TEMP_FOLDER "concat_list.txt")
             (os_path_join TEMP_FOLDER "merged_video.mp4");
  intros cp op Hcp Hop Hne;
  unfold try_except at 1; run_cbv; known; run_cbv; repeat pipe_step.

Ltac pipeline_run := pipeline_run_with idtac.

Lemma written_log_if_nil o l what : written (log_if o l what) = [].
Proof. by destruct o. Qed.
Lemma ffmpeg_runs_log_if_nil o l what : ffmpeg_runs (log_if o l what) = [].
Proof. by destruct o. Qed.
Lemma calls_log_if_nil o l what : calls (log_if o l what) = [].
Proof. by destruct o. Qed.
Lemma failed_log_if_nil o l what :
  (∀ x, is_failure (l, what +:+ x) = false) → failed (log_if o l what) = false.
Proof. intros H. destruct o; cbn; [|done]. by rewrite H. Qed.

(** Evaluates the observations of an explicit trace. *)
Ltac obs_simpl :=
  repeat (
    cbn [app written ffmpeg_runs calls failed select is_progress_site is_uploading_site
         is_upload_site is_delete_status_site is_rclone_site];
    match goal with
    | |- context [(?a ++ ?b) ++ ?c] => rewrite <- (app_assoc a b c)
    | |- context [written (log_if ?o ?l ?w ++ ?t)] => rewrite (written_log_if o l w t)
    | |- context [written (log_if ?o ?l ?w)] => rewrite (written_log_if_nil o l w)
    | |- context [written ((_upload_to_rclone ?E ?u ?p ?q ?st ?sm ?w).2 ++ ?t)] =>
        rewrite (written_rclone _ t (upload_to_rclone_events E u p q st sm w))
    | |- context [ffmpeg_runs (log_if ?o ?l ?w ++ ?t)] => rewrite (ffmpeg_runs_log_if o l w t)
    | |- context [ffmpeg_runs (log_if ?o ?l ?w)] => rewrite (ffmpeg_runs_log_if_nil o l w)
    | |- context [ffmpeg_runs ((_upload_to_rclone ?E ?u ?p ?q ?st ?sm ?w).2 ++ ?t)] =>
        rewrite (ffmpeg_runs_rclone _ t (upload_to_rclone_events E u p q st sm w))
    | |- context [calls (log_if ?o ?l ?w ++ ?t)] => rewrite (calls_log_if o l w t)
    | |- context [calls (log_if ?o ?l ?w)] => rewrite (calls_log_if_nil o l w)
    | |- context [select ?p (log_if ?o ?l ?w ++ ?t)] => rewrite (select_log_if p o l w t)
    | |- context [select ?p (log_if ?o ?l ?w)] =>
        rewrite <- (app_nil_r (log_if o l w)), (select_log_if p o l w [])
    | |- context [select ?p ((_upload_to_rclone ?E ?u ?f ?q ?st ?sm ?w).2 ++ ?t)] =>
        rewrite (select_rclone p _ t ltac:(by intros [])
                   (upload_to_rclone_events E u f q st sm w))
    | |- context [failed (log_if ?o ?l ?w ++ ?t)] =>
        rewrite (failed_log_if o l w t (λ _, eq_refl))
    | |- context [failed (log_if ?o ?l ?w)] =>
        rewrite (failed_log_if_nil o l w (λ _, eq_refl))
    | |- context [failed ((_upload_to_rclone ?E ?u ?p ?q ?st ?sm ?w).2 ++ ?t)] =>
        rewrite (failed_rclone _ t (upload_to_rclone_events E u p q st sm w))
    | |- context [is_failure ?p] =>
        let b := eval lazy in (is_failure p) in change (is_failure p) with b; cbn [orb]
    end);
  cbn [app written ffmpeg_runs calls failed select is_progress_site is_uploading_site
       is_upload_site is_delete_status_site is_rclone_site].

Ltac fs_solve :=
  intros; cbn [fs queues];
  repeat first [rewrite lookup_delete_eq | rewrite lookup_delete_ne by done];
  try done.

(** C1, as the code has it.  A run that has passed the entry checks ends by
    returning, and the manifest it wrote and the output of the ffmpeg run are
    gone when it returns, on every exit path.  The queue is cleared, and the
    files of its videos deleted, only on the paths that reach the end of the
    [try] statement.  On the paths that log a failure (the merge failed, the
    output is missing or too small, an exception was raised, also by the chat
    upload) the registry is as it was, and so is every file other than those
    at the manifest path and the output path: the source files stay, unless
    one of them is stored at one of these two paths. *)
Theorem cleanup_on_every_exit E upd w r w' t :
  passes_entry_checks (effective_user_id upd) w = true →
  execute E upd w = (r, w', t) →
  let cp := os_path_join TEMP_FOLDER "concat_list.txt" in
  let op := os_path_join TEMP_FOLDER "merged_video.mp4" in
  r = inr () ∧
  (written t ≠ [] → fs w' !! cp = None) ∧
  (ffmpeg_runs t ≠ [] → fs w' !! op = None) ∧
  if failed t
  then queues w' = ensure_queue (effective_user_id upd) (queues w) ∧
       (∀ p, p ≠ cp → p ≠ op → fs w' !! p = fs w !! p) ∧
       (∀ v, v ∈ videos (queue_of (effective_user_id upd) w) →
             file_path v ≠ cp → file_path v ≠ op →
             fs w' !! file_path v = fs w !! file_path v)
  else queue_of (effective_user_id upd) w' = empty_queue ∧
       ∀ v, v ∈ videos (queue_of (effective_user_id upd) w) → fs w' !! file_path v = None.
Proof.
  intros Hentry. rewrite execute_entered by done. clear Hentry. cbn zeta.
  destruct w as [f q ud l]. cbn [fs queues user_data]. unfold queue_of at 1 3. cbn [queues].
  rewrite <- (ensure_queue_default (effective_user_id upd) q).
  generalize (ensure_queue (effective_user_id upd) q). clear q. intros q.
  pipeline_run.
  all: intros [= <- <- <-].
  all: rewrite ?Hcp, ?Hop.
  all: obs_simpl.
  all: cbn [fs queues].
  all: split_and!; try done.
  all: try by fs_solve.
  all: try by rewrite lookup_insert_eq.
  all: try by (intros; unfold rm;
               rewrite ?lookup_delete_ne, ?lookup_insert_ne, ?lookup_delete_ne by done).
  all: intros v Hv; rewrite !lookup_delete; repeat case_decide; try done.
  all: apply delete_files_lookup, list_elem_of_fmap; by exists v.
Qed.

(** ** The manifest *)

Lemma append_nil_r s : s +:+ "" = s.
Proof. induction s as [|c s IH]; [done|]. change (String c (s +:+ "") = String c s). by rewrite IH. Qed.

Lemma append_assoc a b c : (a +:+ b) +:+ c = a +:+ b +:+ c.
Proof.
  induction a as [|x a IH]; [done|].
  change (String x ((a +:+ b) +:+ c) = String x (a +:+ b +:+ c)). by rewrite IH.
Qed.

Lemma manifest_text_acc E vs acc :
  fold_left (λ written video, written +:+ manifest_line E video) vs acc =
  acc +:+ foldr (λ v rest, manifest_line E v +:+ rest) "" vs.
Proof.
  revert acc. induction vs as [|v vs IH]; intros acc; cbn.
  - by rewrite append_nil_r.
  - by rewrite IH, append_assoc.
Qed.

Lemma manifest_text_unfold E vs :
  manifest_text E vs = foldr (λ v rest, manifest_line E v +:+ rest) "" vs.
Proof. unfold manifest_text. by rewrite manifest_text_acc. Qed.

Lemma lines_line s rest :
  no_newline s = true → lines (s +:+ NL +:+ rest) = s :: lines rest.
Proof.
  induction s as [|c s IH]; [done|].
  change (negb (Ascii.eqb c "010") && no_newline s = true →
          (if Ascii.eqb c "010" then EmptyString :: lines (s +:+ NL +:+ rest)
           else match lines (s +:+ NL +:+ rest) with
                | [] => [String c EmptyString]
                | l :: ls => String c l :: ls
                end) = String c s :: lines rest).
  intros [Hc Hs]%andb_prop. apply negb_true_iff in Hc. rewrite Hc, IH by done. done.
Qed.

Lemma no_newline_app s1 s2 : no_newline (s1 +:+ s2) = no_newline s1 && no_newline s2.
Proof.
  induction s1 as [|c s1 IH]; [done|].
  change (negb (Ascii.eqb c "010") && no_newline (s1 +:+ s2)
          = negb (Ascii.eqb c "010") && no_newline s1 && no_newline s2).
  by rewrite IH, andb_assoc.
Qed.

Lemma no_newline_replace_char a b s :
  b ≠ "010"%char → no_newline s = true → no_newline (replace_char a b s) = true.
Proof.
  intros Hb. induction s as [|c s IH]; [done|].
  change (negb (Ascii.eqb c "010") && no_newline s = true →
          negb (Ascii.eqb (if Ascii.eqb c a then b else c) "010")
          && no_newline (replace_char a b s) = true).
  intros [Hc Hs]%andb_prop. rewrite IH by done.
  destruct (Ascii.eqb c a); [|by rewrite Hc].
  by apply Ascii.eqb_neq in Hb as ->.
Qed.

(** What the pipeline writes and runs: at most one manifest, at the one
    path, and at most one ffmpeg command over the two paths. *)
Lemma pipeline_io E upd um f q ud r w' t :
  pipeline E upd um {| fs := f; queues := q; user_data := ud; locals := no_locals |}
  = (r, w', t) →
  let vs := videos (default empty_queue (q !! effective_user_id upd)) in
  let cp := os_path_join TEMP_FOLDER "concat_list.txt" in
  let op := os_path_join TEMP_FOLDER "merged_video.mp4" in
  (written t = [] ∨ written t = [(cp, manifest_text E vs)]) ∧
  (api E edit_progress_0 = None ∨ api E send_progress_0 = None →
   api E open_manifest = None → written t = [(cp, manifest_text E vs)]) ∧
  (ffmpeg_runs t = [] ∨ ffmpeg_runs t = [(ffmpeg_cmd cp op, ffmpeg E)]).
Proof.
  pipeline_run.
  all: intros [= <- <- <-].
  all: obs_simpl.
  all: split_and!; eauto.
  all: intros [?|?] ?; congruence.
Qed.

(** C3.  A run that passes the entry checks writes at most one file, the
    manifest, and does write it once the status message exists and the file
    can be opened.  For a queue of n videos its text is n strings, one per
    video in queue order, each of them [file '<path>'] followed by a line
    feed, where <path> is the absolute path of the video with every backslash
    replaced by a slash; when no path contains a line feed these are exactly
    the n lines of the file. *)
Theorem manifest_contents E upd w r w' t :
  passes_entry_checks (effective_user_id upd) w = true →
  execute E upd w = (r, w', t) →
  let vs := videos (queue_of (effective_user_id upd) w) in
  let path v := replace_char "\" "/" (os_path_abspath E (file_path v)) in
  let manifest := foldr (λ v rest, ("file '" +:+ path v +:+ "'" +:+ NL) +:+ rest) "" vs in
  (written t = [] ∨ written t = [(os_path_join TEMP_FOLDER "concat_list.txt", manifest)]) ∧
  (api E edit_progress_0 = None ∨ api E send_progress_0 = None →
   api E open_manifest = None →
   written t = [(os_path_join TEMP_FOLDER "concat_list.txt", manifest)]) ∧
  (Forall (λ v, no_newline (os_path_abspath E (file_path v)) = true) vs →
   lines manifest = (λ v, "file '" +:+ path v +:+ "'") <$> vs ∧
   length (lines manifest) = length vs).
Proof.
  intros Hentry. rewrite execute_entered by done.
  destruct w as [f q ud l]. cbn [fs queues user_data]. unfold queue_of. cbn [queues].
  intros Hrun. apply pipeline_io in Hrun. cbn zeta in Hrun.
  rewrite ensure_queue_default, manifest_text_unfold in Hrun.
  destruct Hrun as (Hw & Hw' & _). cbn zeta. split_and!; [done..|].
  intros Hvs. assert (∀ vs' : list VideoMetadata,
    Forall (λ v, no_newline (os_path_abspath E (file_path v)) = true) vs' →
    lines (foldr (λ v rest, ("file '" +:+ replace_char "\" "/"
                    (os_path_abspath E (file_path v)) +:+ "'" +:+ NL) +:+ rest) "" vs')
    = (λ v, "file '" +:+ replace_char "\" "/" (os_path_abspath E (file_path v)) +:+ "'")
        <$> vs') as Hlines.
  { clear. induction 1 as [|v vs' Hv Hvs IH]; [done|]. cbn [foldr fmap list_fmap].
    rewrite <- IH.
    change (("file '" +:+ ?p +:+ "'" +:+ NL) +:+ ?rest)
      with ("file '" +:+ (p +:+ "'" +:+ NL) +:+ rest).
    rewrite !append_assoc.
    rewrite <- (lines_line ("file '" +:+ _ +:+ "'")); [by rewrite !append_assoc|].
    rewrite !no_newline_app, no_newline_replace_char by done. done. }
  split; [by apply Hlines|]. by rewrite Hlines, length_fmap.
Qed.

(** C8.  The manifest path and the output path are [concat_list.txt] and
    [merged_video.mp4] inside [TEMP_FOLDER] in every execution: whatever the
    user, the queue and the outside world, every file a run writes is at the
    first path and every ffmpeg command reads the first and writes the
    second.  Two executions therefore use the same two paths. *)
Theorem merge_paths_are_fixed E1 upd1 w1 E2 upd2 w2 :
  let cp := os_path_join TEMP_FOLDER "concat_list.txt" in
  let op := os_path_join TEMP_FOLDER "merged_video.mp4" in
  let t1 := (execute E1 upd1 w1).2 in
  let t2 := (execute E2 upd2 w2).2 in
  Forall (λ x, x.1 = cp) (written t1) ∧ Forall (λ x, x.1 = cp) (written t2) ∧
  Forall (λ x, x.1 = ffmpeg_cmd cp op) (ffmpeg_runs t1) ∧
  Forall (λ x, x.1 = ffmpeg_cmd cp op) (ffmpeg_runs t2) ∧
  cp ≠ op.
Proof.
  assert (∀ E upd w,
    Forall (λ x, x.1 = os_path_join TEMP_FOLDER "concat_list.txt")
      (written (execute E upd w).2) ∧
    Forall (λ x, x.1 = ffmpeg_cmd (os_path_join TEMP_FOLDER "concat_list.txt")
                         (os_path_join TEMP_FOLDER "merged_video.mp4"))
      (ffmpeg_runs (execute E upd w).2)) as H.
  { intros E upd w.
    destruct (passes_entry_checks (effective_user_id upd) w) eqn:Hentry.
    - rewrite execute_entered by done.
      destruct (try_except _ _ _) as [[r w'] t] eqn:Hrun. cbn [snd].
      apply pipeline_io in Hrun as ([->| ->] & _ & [->| ->]); cbn;
        repeat constructor.
    - destruct (merge_rejected_run E upd w Hentry) as (s & text & _ & _ & _ & -> & -> & _).
      by split. }
  cbn zeta. split_and!; try apply H. apply os_path_join_distinct.
Qed.

(** ** Failure of the merge and of its output *)

Ltac suffix_solve :=
  first [reflexivity
        | apply suffix_cons_r; suffix_solve
        | apply suffix_app_r; suffix_solve].

(** Brings the file-system facts collected along a path into a usable form. *)
Ltac fs_facts :=
  repeat match goal with
         | H : <[?k:=_]> _ !! ?k = _ |- _ => rewrite lookup_insert_eq in H
         | H : <[_:=_]> _ !! _ = _ |- _ => rewrite lookup_insert_ne in H by done
         end;
  simplify_eq.

(** C4.  When ffmpeg returns a non-zero exit status the run ends there: the
    return code and the captured stderr are logged, the status message is
    asked to show the fixed incompatible-format text, and the manifest and
    the partial output are removed.  The requests of the whole run are those
    that created the status message, the 5% update and that one text, so
    nothing of the output is validated or delivered and stderr is not shown. *)
Theorem merge_failure_handling E upd w r w' t :
  passes_entry_checks (effective_user_id upd) w = true →
  execute E upd w = (r, w', t) →
  ffmpeg_runs t ≠ [] →
  ff_raises (ffmpeg E) = None →
  returncode (ffmpeg E) ≠ 0 →
  [Ffmpeg (ffmpeg_cmd (os_path_join TEMP_FOLDER "concat_list.txt")
                      (os_path_join TEMP_FOLDER "merged_video.mp4")) (ffmpeg E);
   Log ERROR ("FFmpeg merge failed with return code: " +:+ str_Z (returncode (ffmpeg E)));
   Log ERROR ("FFmpeg stderr: " +:+ stderr (ffmpeg E));
   Call edit_merge_failed (edit_text (status_message E upd) text_merge_failed)
     (api E edit_merge_failed)] `suffix_of` t ∧
  (∃ total_size_mb,
     calls t = creation_calls E upd ++
       [(edit_progress_5, edit_text (status_message E upd) (text_progress_5 total_size_mb),
         api E edit_progress_5);
        (edit_merge_failed, edit_text (status_message E upd) text_merge_failed,
         api E edit_merge_failed)]) ∧
  failed t = true ∧
  r = inr () ∧
  fs w' !! os_path_join TEMP_FOLDER "concat_list.txt" = None ∧
  fs w' !! os_path_join TEMP_FOLDER "merged_video.mp4" = None.
Proof.
  intros Hentry. rewrite execute_entered by done. clear Hentry.
  destruct w as [f q ud l]. cbn [fs queues user_data].
  generalize (ensure_queue (effective_user_id upd) q). clear q. intros q.
  unfold status_message, creation_calls.
  intros Hrun Hruns Hraise Hrc%Z.eqb_neq. revert Hrun Hruns.
  pipeline_run_with ltac:(rewrite ?Hraise, ?Hrc).
  all: intros [= <- <- <-].
  all: rewrite ?Hcp, ?Hop.
  all: obs_simpl.
  all: intros Hruns; try done.
  all: cbn [fs].
  all: split_and!; try done; try by fs_solve.
  all: try suffix_solve.
  all: by eexists.
Qed.

(** C5, as the code has it.  After ffmpeg has returned zero the pipeline goes
    on to the uploading stage exactly when the output file exists and has at
    least 1024 bytes ([os.path.getsize(output_file) < 1024] rejects it).
    Otherwise the run ends there: the failure is logged, the status message
    is asked to show the corrupted-output text, which differs from the text
    of a failed merge, nothing is uploaded, and the output and the manifest
    are removed. *)
Theorem output_validation E upd w r w' t :
  passes_entry_checks (effective_user_id upd) w = true →
  execute E upd w = (r, w', t) →
  ffmpeg_runs t ≠ [] →
  ff_raises (ffmpeg E) = None →
  returncode (ffmpeg E) = 0 →
  let cp := os_path_join TEMP_FOLDER "concat_list.txt" in
  let op := os_path_join TEMP_FOLDER "merged_video.mp4" in
  (select is_uploading_site t ≠ [] ↔
   ∃ c, output_after E op w = Some c ∧ (1024 ≤ N.of_nat (String.length c))%N) ∧
  (select is_uploading_site t = [] →
   [Log ERROR ("Output file missing or too small: " +:+ op);
    Call edit_corrupted (edit_text (status_message E upd) text_corrupted)
      (api E edit_corrupted)] `suffix_of` t ∧
   select is_upload_site t = [] ∧
   failed t = true ∧
   r = inr () ∧
   fs w' !! op = None ∧
   fs w' !! cp = None) ∧
  text_corrupted ≠ text_merge_failed.
Proof.
  intros Hentry. rewrite execute_entered by done. clear Hentry.
  destruct w as [f q ud l]. unfold status_message, output_after. cbn [fs queues user_data].
  generalize (ensure_queue (effective_user_id upd) q). clear q. intros q.
  intros Hrun Hruns Hraise Hrc. apply Z.eqb_eq in Hrc. revert Hrun Hruns.
  pipeline_run_with ltac:(rewrite ?Hraise, ?Hrc).
  all: intros [= <- <- <-].
  all: rewrite ?Hcp, ?Hop.
  all: obs_simpl.
  all: intros Hruns; try done.
  all: fs_facts.
  all: repeat match goal with H : ?m !! ?k = _ |- context [?m !! ?k] => rewrite H end.
  all: cbn [fs].
  all: (split_and!; [split| |by intros H; vm_compute in H]).
  all: try done.
  all: try (intros (c & ? & Hc); simplify_eq;
            match goal with H : (_ <? _)%N = true |- _ => apply N.ltb_lt in H; lia end).
  all: try (intros _; eexists; split; [done|];
            match goal with H : (_ <? _)%N = false |- _ => by apply N.ltb_ge in H end).
  all: intros _; split_and!; try done; try suffix_solve; by fs_solve.
Qed.

(** ** Delivery *)

(** A failed upload leaves [_upload_to_telegram] as an exception. *)
Lemma upload_to_telegram_raises E u (p : string) size_mb queue st sm (doc : bool) (w : world) e :
  is_Some (fs w !! p) →
  api E (if doc then upload_document else upload_video) = Some e →
  (_upload_to_telegram _format_duration E u p size_mb queue st sm doc w).1.1 = inl e.
Proof.
  destruct w as [f q ud l]. cbn [fs]. intros [c Hc] He.
  unfold _upload_to_telegram. run_cbv. rewrite Hc. run_cbv.
  destruct doc; run_cbv; rewrite He; reflexivity.
Qed.

(** C6.  With the chat engine, a run that reaches the uploading stage makes
    exactly one upload request: [send_document] when the format is
    "document", [send_video] otherwise, so for "video".  Its caption is the
    text of lines 310-314 and 320-324: it contains "Size: " and the size of
    the output file in MB with two decimals, and ends with "Processing time: "
    and the whole seconds between the start of the pipeline (line 125) and
    the upload.  When the upload succeeds the status message is deleted.
    When it fails, the exception leaves [_upload_to_telegram], is caught by
    the [except] clause of [execute_smart_merge] and logged there, the status
    message is not deleted, and no second upload is attempted. *)
Theorem chat_delivery E upd w r w' t :
  passes_entry_checks (effective_user_id upd) w = true →
  execute E upd w = (r, w', t) →
  default "telegram" (default ∅ (upload_mode (user_data w)) !! "engine") = "telegram" →
  select is_uploading_site t ≠ [] →
  let u := effective_user_id upd in
  let op := os_path_join TEMP_FOLDER "merged_video.mp4" in
  let document :=
    bool_decide (default ∅ (upload_mode (user_data w)) !! "format" = Some "document") in
  ∃ c,
    output_after E op w = Some c ∧
    let size_mb := format_2f (MiB (N.of_nat (String.length c))) in
    let seconds :=
      str_Z (int_of_float (PrimFloat.sub (time_time E clock_caption)
                                         (time_time E clock_start))) in
    let cap icon :=
      "✅ MERGE COMPLETE!" +:+ NL +:+ "━━━━━━━━━━━━━━━━━━" +:+ NL +:+ NL +:+
      icon +:+ " merged_video.mp4" +:+ NL +:+
      "📊 Size: " +:+ size_mb +:+ "MB" +:+ NL +:+
      "⏱️ Duration: " +:+ _format_duration (get_total_duration (queue_of u w)) +:+ NL +:+ NL +:+
      "⏲️ Processing time: " +:+ seconds +:+ "s" in
    select is_upload_site t =
      [if document
       then (upload_document, send_document u op (cap "📁"), api E upload_document)
       else (upload_video, send_video u op (cap "📹"), api E upload_video)] ∧
    match api E (if document then upload_document else upload_video) with
    | None =>
        select is_delete_status_site t =
          [(delete_status, delete_msg (status_message E upd), api E delete_status)] ∧
        (api E delete_status = None → failed t = false)
    | Some e =>
        select is_delete_status_site t = [] ∧
        [Log ERROR ("Telegram upload error: " +:+ str_exn e);
         Log ERROR ("Error executing merge: " +:+ str_exn e)] `sublist_of` t ∧
        failed t = true
    end.
Proof.
  intros Hentry. rewrite execute_entered by done. clear Hentry.
  destruct w as [f q [o um mm am] l]. unfold status_message, output_after, queue_of.
  cbn [fs queues user_data upload_mode].
  rewrite <- (ensure_queue_default (effective_user_id upd) q).
  generalize (ensure_queue (effective_user_id upd) q). clear q. intros q.
  intros Hrun Hengine%String.eqb_eq. revert Hrun.
  pipeline_run_with ltac:(rewrite ?Hengine).
  all: intros [= <- <- <-].
  all: obs_simpl.
  all: intros Hruns; try done.
  all: fs_facts.
  all: repeat match goal with H : ?m !! ?k = _ |- context [?m !! ?k] => rewrite H end.
  all: eexists; split; [done|].
  all: repeat match goal with
              | H : bool_decide _ = _ |- _ => rewrite H
              | H : api _ _ = _ |- _ => rewrite H
              end.
  all: split_and!; try done.
  all: try (intros ?; done).
  all: repeat first [apply sublist_nil_l | apply sublist_skip | apply sublist_inserts_l
                    | apply sublist_cons].
Qed.

(** The requests of [_upload_to_rclone] in each of its outcomes. *)
Lemma upload_to_rclone_calls E u p queue st m w :
  let t := (_upload_to_rclone E u p queue st (Some m) w).2 in
  match match api E import_rclone with
        | Some e => Some e
        | None => rc_raises (rclone_driver E)
        end with
  | Some (ImportError msg) =>
      calls t = [(edit_rclone_missing,
                  edit_text m ("❌ Rclone handler not found." +:+ NL +:+
                               "Please ensure rclone module is installed."),
                  api E edit_rclone_missing)]
  | Some (Exception msg) =>
      calls t = [(edit_rclone_error, edit_text m ("❌ Rclone upload failed: " +:+ msg),
                  api E edit_rclone_error)]
  | None =>
      if rc_success (rclone_driver E) then True
      else calls t = [(edit_rclone_failed,
                       edit_text m ("❌ Rclone upload failed:" +:+ NL +:+
                                    default "Unknown error" (rc_error (rclone_driver E))),
                       api E edit_rclone_failed)]
  end.
Proof.
  destruct w as [f q ud l]. unfold _upload_to_rclone, try_pass. cbn zeta.
  run. all: try done.
  all: repeat match goal with e : exn |- _ => destruct e end; try done.
Qed.

(** C9.  [_upload_to_rclone] never raises: whatever the import, the driver
    and the status edits do, it returns normally; an import failure, any
    other exception and an unsuccessful upload result each lead to one edit
    of the status message, the terminal text of that case.  A run with the
    rclone engine that reaches the uploading stage therefore reaches the end
    of the [try] statement: the queue is cleared and the source files, the
    output and the manifest are removed.  In contrast, a failed chat upload
    leaves [_upload_to_telegram] as an exception. *)
Theorem remote_delivery_absorbs_errors E upd w r w' t :
  (∀ u p queue st sm w0, (_upload_to_rclone E u p queue st sm w0).1.1 = inr ()) ∧
  (∀ u p queue st m w0,
     let t0 := (_upload_to_rclone E u p queue st (Some m) w0).2 in
     match match api E import_rclone with
           | Some e => Some e
           | None => rc_raises (rclone_driver E)
           end with
     | Some (ImportError msg) =>
         calls t0 = [(edit_rclone_missing,
                      edit_text m ("❌ Rclone handler not found." +:+ NL +:+
                                   "Please ensure rclone module is installed."),
                      api E edit_rclone_missing)]
     | Some (Exception msg) =>
         calls t0 = [(edit_rclone_error, edit_text m ("❌ Rclone upload failed: " +:+ msg),
                      api E edit_rclone_error)]
     | None =>
         rc_success (rclone_driver E) = false →
         calls t0 = [(edit_rclone_failed,
                      edit_text m ("❌ Rclone upload failed:" +:+ NL +:+
                                   default "Unknown error" (rc_error (rclone_driver E))),
                      api E edit_rclone_failed)]
     end) ∧
  (passes_entry_checks (effective_user_id upd) w = true →
   execute E upd w = (r, w', t) →
   default "telegram" (default ∅ (upload_mode (user_data w)) !! "engine") = "rclone" →
   select is_uploading_site t ≠ [] →
   r = inr () ∧ failed t = false ∧
   queue_of (effective_user_id upd) w' = empty_queue ∧
   fs w' !! os_path_join TEMP_FOLDER "concat_list.txt" = None ∧
   fs w' !! os_path_join TEMP_FOLDER "merged_video.mp4" = None ∧
   ∀ v, v ∈ videos (queue_of (effective_user_id upd) w) → fs w' !! file_path v = None) ∧
  (∀ u (p : string) size_mb queue st sm (document : bool) (w0 : world) e,
     is_Some (fs w0 !! p) →
     api E (if document then upload_document else upload_video) = Some e →
     (_upload_to_telegram _format_duration E u p size_mb queue st sm document w0).1.1
     = inl e).
Proof.
  split_and!.
  - intros. by rewrite upload_to_rclone_run.
  - intros u p queue st m w0. pose proof (upload_to_rclone_calls E u p queue st m w0) as H.
    cbn zeta in *. repeat case_match; done.
  - intros Hentry. rewrite execute_entered by done. clear Hentry.
    destruct w as [f q [o um mm am] l]. unfold queue_of.
    cbn [fs queues user_data upload_mode].
    rewrite <- (ensure_queue_default (effective_user_id upd) q).
    generalize (ensure_queue (effective_user_id upd) q). clear q. intros q.
    intros Hrun Hengine. revert Hrun.
    pipeline_run_with ltac:(rewrite ?Hengine; cbn [String.eqb Ascii.eqb Bool.eqb]).
    all: intros [= <- <- <-].
    all: rewrite ?Hcp, ?Hop.
    all: obs_simpl.
    all: intros Hruns; try done.
    all: cbn [fs queues].
    all: split_and!; try done; try by fs_solve.
    all: try by rewrite lookup_insert_eq.
    all: intros v Hv; rewrite !lookup_delete; repeat case_decide; try done.
    all: apply delete_files_lookup, list_elem_of_fmap; by exists v.
  - intros. by apply upload_to_telegram_raises.
Qed.

(** ** Progress reporting *)

(** A text without the first character of [needle] does not contain it. *)
Lemma contains_first_char c needle s :
  has_char c s = false → contains (String c needle) s = false.
Proof.
  induction s as [|c' s IH]; [done|].
  change (Ascii.eqb c' c || has_char c s = false →
          (if ascii_dec c c' then String.prefix needle s else false)
          || contains (String c needle) s = false).
  intros [Hc Hs]%orb_false_elim. rewrite IH by done.
  destruct (ascii_dec c c') as [->|]; [|done]. by rewrite Ascii.eqb_refl in Hc.
Qed.

Lemma has_char_app c s1 s2 : has_char c (s1 +:+ s2) = has_char c s1 || has_char c s2.
Proof.
  induction s1 as [|c' s1 IH]; [done|].
  change (Ascii.eqb c' c || has_char c (s1 +:+ s2)
          = Ascii.eqb c' c || has_char c s1 || has_char c s2).
  by rewrite IH, orb_assoc.
Qed.

(** A formatted number consists of digits, a sign and a point. *)
Lemma has_char_string_of_uint u : has_char "P" (NilEmpty.string_of_uint u) = false.
Proof. induction u; done. Qed.

Lemma has_char_str_Z z : has_char "P" (str_Z z) = false.
Proof. unfold str_Z. destruct (Z.to_int z); cbn; apply has_char_string_of_uint. Qed.

Lemma has_char_format_2f x : has_char "P" (format_2f x) = false.
Proof.
  unfold format_2f, two_digits.
  rewrite !has_char_app, has_char_str_Z.
  destruct (Qnum x <? 0); destruct (_ <? 10); by rewrite ?has_char_app, !has_char_str_Z.
Qed.

(** No progress text carries a marker for 100%. *)
Lemma no_marker_for_100 total_size_mb :
  contains "Progress: 100%" text_progress_0 = false ∧
  contains "Progress: 100%" (text_progress_5 total_size_mb) = false ∧
  contains "Progress: 100%" text_progress_95 = false.
Proof.
  split_and!; [done| |done].
  unfold text_progress_5.
  generalize (has_char_format_2f total_size_mb). generalize (format_2f total_size_mb).
  intros size Hsize.
  assert (contains "Progress: 100%" (size +:+ "MB" +:+ NL +:+ "⏱️ ETA: Calculating...") = false)
    as Hrest by (apply contains_first_char; rewrite has_char_app, Hsize; done).
  revert Hrest. generalize (size +:+ "MB" +:+ NL +:+ "⏱️ ETA: Calculating..."). intros rest Hrest.
  vm_compute. vm_compute in Hrest. exact Hrest.
Qed.

(** The remote-storage upload does not depend on what the status updates at
    5% and 95% do. *)
Lemma upload_to_rclone_progress E o5 o95 u p queue st sm w :
  _upload_to_rclone (with_progress_outcomes E o5 o95) u p queue st sm w =
  _upload_to_rclone E u p queue st sm w.
Proof. reflexivity. Qed.

Ltac logged_simpl :=
  repeat (cbn [logged app log_if]; rewrite ?logged_app).

(** Whatever the status updates at 5% and 95% do, the pipeline returns the
    same result and leaves the same state, and the outcome of the update at
    95% leaves no entry in the log. *)
Lemma progress_outcomes_ignored E upd um f q ud o5 o95 r1 w1 t1 r2 w2 t2 :
  pipeline E upd um
    {| fs := f; queues := q; user_data := ud; locals := no_locals |} = (r1, w1, t1) →
  pipeline (with_progress_outcomes E o5 o95) upd um
    {| fs := f; queues := q; user_data := ud; locals := no_locals |} = (r2, w2, t2) →
  r2 = r1 ∧ w2 = w1 ∧ (o5 = api E edit_progress_5 → logged t2 = logged t1).
Proof.
  unfold with_progress_outcomes.
  pipeline_run_with
    ltac:(unfold manifest_text, manifest_line;
          cbn [api new_message_id time_time ffmpeg rclone_driver probe os_path_abspath]).
  all: intros [= <- <- <-].
  all: repeat (pipe_step; unfold rclone_fs;
               cbn [api new_message_id time_time ffmpeg rclone_driver probe os_path_abspath]).
  all: intros [= <- <- <-].
  all: split_and!; try done.
  all: intros ->.
  all: repeat match goal with
              | |- context [_upload_to_rclone (Build_env ?a ?b ?c ?d ?x ?y ?z) ?u ?p ?q0 ?st ?sm ?w] =>
                  change (_upload_to_rclone (Build_env a b c d x y z) u p q0 st sm w)
                    with (_upload_to_rclone E u p q0 st sm w)
              end.
  all: logged_simpl; reflexivity.
Qed.

(** C7, as the code has it.  The progress requests of a run are, in this
    order: those that create the status message with the 0% text (an edit of
    the menu message or, when that fails, a new message); once all source
    files were measured and before ffmpeg is run, the 5% text; and once the
    output has passed validation, the 95% text, the latter two as edits of
    that one status message.  Their texts carry the markers for 0%, 5% and 95%
    and no progress text carries one for 100%.  A failed initial edit is
    logged and replaced by a new message; when that fails too the run is
    aborted, with nothing written or merged.  A failed update at 5% is logged;
    the outcome of the update at 95% leaves no log entry; and what the two
    updates do has no influence on the result and the final state of the
    run. *)
Theorem progress_reporting E upd w r w' t :
  passes_entry_checks (effective_user_id upd) w = true →
  execute E upd w = (r, w', t) →
  let cp := os_path_join TEMP_FOLDER "concat_list.txt" in
  let op := os_path_join TEMP_FOLDER "merged_video.mp4" in
  let vs := videos (queue_of (effective_user_id upd) w) in
  let m := status_message E upd in
  (∃ total_size_mb,
     (ffmpeg_runs t ≠ [] →
      sum_sizes_mb (<[cp := manifest_text E vs]> (fs w)) vs 0 = inr total_size_mb) ∧
     select is_progress_site t =
       creation_calls E upd ++
       match ffmpeg_runs t with
       | [] => []
       | _ :: _ =>
           (edit_progress_5, edit_text m (text_progress_5 total_size_mb),
            api E edit_progress_5) ::
           (if output_accepted E op w
            then [(edit_progress_95, edit_text m text_progress_95, api E edit_progress_95)]
            else [])
       end) ∧
  (contains "Progress: 0%" text_progress_0 = true ∧
   (∀ total_size_mb, contains "Progress: 5%" (text_progress_5 total_size_mb) = true) ∧
   contains "Progress: 95%" text_progress_95 = true) ∧
  (contains "Progress: 100%" text_progress_0 = false ∧
   (∀ total_size_mb, contains "Progress: 100%" (text_progress_5 total_size_mb) = false) ∧
   contains "Progress: 100%" text_progress_95 = false) ∧
  (∀ e, api E edit_progress_0 = Some e →
        (ERROR, "Could not edit message: " +:+ str_exn e) ∈ logged t) ∧
  (api E edit_progress_0 ≠ None → api E send_progress_0 ≠ None →
   written t = [] ∧ ffmpeg_runs t = [] ∧ failed t = true) ∧
  (∀ e, api E edit_progress_5 = Some e → ffmpeg_runs t ≠ [] →
        (WARNING, "Could not update status: " +:+ str_exn e) ∈ logged t) ∧
  (∀ o5 o95, (execute (with_progress_outcomes E o5 o95) upd w).1 = (r, w')) ∧
  (∀ o95, logged (execute (with_progress_outcomes E (api E edit_progress_5) o95) upd w).2
          = logged t).
Proof.
  intros Hentry Hrun. cbn zeta.
  assert (∀ o5 o95,
            (execute (with_progress_outcomes E o5 o95) upd w).1 = (r, w') ∧
            (o5 = api E edit_progress_5 →
             logged (execute (with_progress_outcomes E o5 o95) upd w).2 = logged t)) as Hind.
  { intros o5 o95. rewrite execute_entered in * by done.
    destruct (try_except _ _ _) as [[r2 w2] t2] eqn:Hrun2 in |- *.
    cbn [fst snd]. destruct w as [f q ud l].
    by destruct (progress_outcomes_ignored _ _ _ _ _ _ _ _ _ _ _ _ _ _ Hrun Hrun2)
      as (-> & -> & ?). }
  assert (∀ o5 o95, (execute (with_progress_outcomes E o5 o95) upd w).1 = (r, w'))
    as Hsame by (intros; apply Hind).
  assert (∀ o95, logged (execute (with_progress_outcomes E (api E edit_progress_5) o95)
                           upd w).2 = logged t)
    as Hlog by (intros; by apply Hind).
  clear Hind.
  assert (∀ x, contains "Progress: 100%" (text_progress_5 x) = false) as H100
    by (intros x; apply no_marker_for_100).
  revert Hrun Hsame Hlog. rewrite execute_entered by done. clear Hentry.
  generalize (execute_smart_merge TEMP_FOLDER _format_duration). intros run.
  destruct w as [f q ud l]. unfold output_accepted, output_after, queue_of.
  cbn [fs queues user_data].
  rewrite <- (ensure_queue_default (effective_user_id upd) q).
  set (q' := ensure_queue (effective_user_id upd) q). clearbody q'.
  unfold status_message, creation_calls.
  pipeline_run.
  all: intros [= <- <- <-].
  all: obs_simpl.
  all: intros Hsame Hlog.
  all: fs_facts.
  all: repeat match goal with
              | H : ?m !! ?k = _ |- context [?m !! ?k] => rewrite H
              | H : (?a <? ?b)%N = _ |- context [(?a <? ?b)%N] => rewrite H
              end.
  all: cbn [andb negb].
  all: split_and!; try done.
  all: try (intros ? [= <-]; logged_simpl; by repeat constructor).
  all: try (intros ? He _; rewrite He; logged_simpl; by repeat constructor).
  all: (match goal with q0 : Q |- _ => exists q0 | _ => exists 0%Q end);
       (split; [intros ?; congruence|reflexivity]).
Qed.

(** ** Further properties of the pipeline *)








End execute_smart_merge.

(** ** The two upload functions *)

Section uploads.

Variable _format_duration : Q → string.



End uploads.

(** ** Texts *)









(** ** [handle_merge_callbacks] *)

Section handle_merge_callbacks.

Variable telegram_format_keyboard : keyboard.











End handle_merge_callbacks.

(** * The properties at sample runs *)

(** C1 fails as stated: after a merge that ffmpeg fails the pipeline has
    returned, the manifest and the partial output are gone, and the queue
    still holds both videos, whose files are still there. *)
Lemma queue_kept_after_failed_merge :
  passes_entry_checks 7 (two_videos (Some "telegram") (Some "video")) = true ∧
  (ffmpeg_runs run_merge_failed.2).*2 =
    [ffmpeg_result 1 "Invalid data found when processing input" (Some (blob 20))] ∧
  run_merge_failed.1.1 = inr () ∧
  fs run_merge_failed.1.2 !! "temp/concat_list.txt" = None ∧
  fs run_merge_failed.1.2 !! "temp/merged_video.mp4" = None ∧
  queue_of 7 run_merge_failed.1.2 =
    {| videos := [video_a; video_b]; queue_message_id := Some 60 |} ∧
  fs run_merge_failed.1.2 !! "/data/a.mp4" = Some "AAAA" ∧
  fs run_merge_failed.1.2 !! "C:\data\b.mp4" = Some "BBBBBB".
Proof. vm_compute. done. Qed.

Lemma cleanup_on_every_exit_witness :
  fs run_upload_failed.1.2 !! "temp/concat_list.txt" = None ∧
  fs run_upload_failed.1.2 !! "temp/merged_video.mp4" = None ∧
  queues run_upload_failed.1.2 = queues (two_videos (Some "telegram") (Some "video")) ∧
  fs run_upload_failed.1.2 !! "/data/a.mp4" = Some "AAAA".
Proof.
  destruct (cleanup_on_every_exit "temp" sample_duration
              (sample_env [upload_video] (ffmpeg_result 0 "" (Some (blob 2048)))) sample_update
              (two_videos (Some "telegram") (Some "video"))
              run_upload_failed.1.1 run_upload_failed.1.2 run_upload_failed.2)
    as (_ & Hcp & Hop & Hq).
  - vm_compute; reflexivity.
  - vm_compute; reflexivity.
  - change (failed run_upload_failed.2) with true in Hq. cbn iota in Hq.
    destruct Hq as (Hq & Hfs & _). split_and!.
    + apply Hcp. vm_compute. discriminate.
    + apply Hop. vm_compute. discriminate.
    + rewrite Hq. vm_compute. reflexivity.
    + rewrite Hfs; [vm_compute; reflexivity|vm_compute; discriminate..].
Defined.

(** C2 fails as stated: a rejected merge of a user who has no queue yet
    changes the registry, which holds an empty queue for that user
    afterwards. *)
Lemma rejected_merge_registers_queue :
  upload_mode (user_data (sample_world [video_a; video_b] None)) = None ∧
  queues (sample_world [video_a; video_b] None) !! 9 = None ∧
  calls run_rejected_new_user.2 =
    [(answer_no_mode, answer "❌ Please select Upload Mode first!" true, None)] ∧
  run_rejected_new_user.1.1 = inr () ∧
  ffmpeg_runs run_rejected_new_user.2 = [] ∧
  written run_rejected_new_user.2 = [] ∧
  queues run_rejected_new_user.1.2 !! 9 = Some empty_queue.
Proof. vm_compute. done. Qed.

Lemma merge_rejected_without_effect_witness :
  (sample_merge (sample_env [] (ffmpeg_result 0 "" None))
     (sample_world [video_a] (Some (mode (Some "telegram") (Some "video"))))).1.2
  = sample_world [video_a] (Some (mode (Some "telegram") (Some "video"))) ∧
  ffmpeg_runs (sample_merge (sample_env [] (ffmpeg_result 0 "" None))
        (sample_world [video_a] (Some (mode (Some "telegram") (Some "video"))))).2 = [].
Proof.
  destruct (merge_rejected_without_effect "temp" sample_duration
              (sample_env [] (ffmpeg_result 0 "" None)) sample_update
              (sample_world [video_a] (Some (mode (Some "telegram") (Some "video")))))
    as (s & text & _ & _ & _ & Hff & _ & _ & _ & _ & _ & Hsame).
  - right; right. vm_compute. lia.
  - split; [apply Hsame; vm_compute; eauto|exact Hff].
Defined.

Lemma manifest_contents_witness :
  written run_delivered.2 =
    [("temp/concat_list.txt",
      "file '/data/a.mp4'" +:+ NL +:+ "file 'C:/data/b.mp4'" +:+ NL)] ∧
  lines ("file '/data/a.mp4'" +:+ NL +:+ "file 'C:/data/b.mp4'" +:+ NL) =
    ["file '/data/a.mp4'"; "file 'C:/data/b.mp4'"].
Proof.
  destruct (manifest_contents "temp" sample_duration
              (sample_env [] (ffmpeg_result 0 "" (Some (blob 2048)))) sample_update
              (two_videos (Some "telegram") (Some "video"))
              run_delivered.1.1 run_delivered.1.2 run_delivered.2)
    as (_ & Hw & Hl).
  - vm_compute; reflexivity.
  - vm_compute; reflexivity.
  - split.
    + apply Hw; [left|]; vm_compute; reflexivity.
    + apply Hl. repeat constructor.
Defined.

Lemma merge_failure_handling_witness :
  failed run_merge_failed.2 = true ∧
  fs run_merge_failed.1.2 !! "temp/merged_video.mp4" = None.
Proof.
  destruct (merge_failure_handling "temp" sample_duration
              (sample_env [] (ffmpeg_result 1 "Invalid data found when processing input"
                                (Some (blob 20)))) sample_update
              (two_videos (Some "telegram") (Some "video"))
              run_merge_failed.1.1 run_merge_failed.1.2 run_merge_failed.2)
    as (_ & _ & Hf & _ & _ & Hop).
  - vm_compute; reflexivity.
  - vm_compute; reflexivity.
  - vm_compute; discriminate.
  - reflexivity.
  - vm_compute; discriminate.
  - split; [exact Hf|exact Hop].
Defined.

(** C5 fails as stated: an output of exactly 1024 bytes does not exceed
    1 KiB, and it is uploaded. *)
Lemma output_of_1024_bytes_is_delivered :
  passes_entry_checks 7 (two_videos (Some "telegram") (Some "video")) = true ∧
  (ffmpeg_runs run_1024_bytes.2).*2 = [ffmpeg_result 0 "" (Some (blob 1024))] ∧
  String.length (blob 1024) = 1024%nat ∧
  ¬ (1024 < String.length (blob 1024))%nat ∧
  (select is_upload_site run_1024_bytes.2).*1.*1 = [upload_video] ∧
  (select is_upload_site run_1024_bytes.2).*2 = [None] ∧
  failed run_1024_bytes.2 = false.
Proof. vm_compute. split_and!; try done. lia. Qed.

Lemma output_validation_witness :
  select is_upload_site run_small_output.2 = [] ∧ failed run_small_output.2 = true.
Proof.
  destruct (output_validation "temp" sample_duration
              (sample_env [] (ffmpeg_result 0 "" (Some (blob 100)))) sample_update
              (two_videos (Some "telegram") (Some "document"))
              run_small_output.1.1 run_small_output.1.2 run_small_output.2)
    as (_ & H & _).
  - vm_compute; reflexivity.
  - vm_compute; reflexivity.
  - vm_compute; discriminate.
  - reflexivity.
  - reflexivity.
  - destruct H as (_ & Hup & Hf & _); [vm_compute; reflexivity|]. by split.
Defined.

Lemma chat_delivery_witness :
  select is_upload_site run_document.2 =
    [(upload_document,
      send_document 7 "temp/merged_video.mp4"
        ("✅ MERGE COMPLETE!" +:+ NL +:+ "━━━━━━━━━━━━━━━━━━" +:+ NL +:+ NL +:+
         "📁 merged_video.mp4" +:+ NL +:+
         "📊 Size: 0.01MB" +:+ NL +:+
         "⏱️ Duration: 25.00s" +:+ NL +:+ NL +:+
         "⏲️ Processing time: 12s"),
      None)] ∧
  select is_delete_status_site run_document.2 =
    [(delete_status, delete_msg {| chat := 7; message_id := 50 |}, None)].
Proof.
  destruct (chat_delivery "temp" sample_duration
              (sample_env [] (ffmpeg_result 0 "" (Some (blob (12 * 1024))))) sample_update
              (two_videos (Some "telegram") (Some "document"))
              run_document.1.1 run_document.1.2 run_document.2)
    as (c & Hc & Hup & Hdel).
  - vm_compute; reflexivity.
  - vm_compute; reflexivity.
  - vm_compute; reflexivity.
  - vm_compute; discriminate.
  - injection Hc as <-. split.
    + rewrite Hup. vm_compute. reflexivity.
    + apply Hdel.
Defined.

(** C7 fails as stated: no text of a delivered merge carries a 100% marker;
    when the status message cannot be created the run is aborted before
    anything is written or merged; and a failed update at 95% is not logged. *)
Lemma no_marker_for_100_and_abort :
  passes_entry_checks 7 (two_videos (Some "telegram") (Some "video")) = true ∧
  run_delivered.1.1 = inr () ∧ failed run_delivered.2 = false ∧
  length (texts run_delivered.2) = 4%nat ∧
  forallb (λ text, negb (contains "100%" text)) (texts run_delivered.2) = true ∧
  (calls run_no_status.2).*1.*1 = [edit_progress_0; send_progress_0; send_merge_error] ∧
  written run_no_status.2 = [] ∧
  ffmpeg_runs run_no_status.2 = [] ∧
  failed run_no_status.2 = true ∧
  (select is_progress_site run_progress_fails.2).*2 =
    [None; Some (Exception "Forbidden: bot was blocked by the user");
     Some (Exception "Forbidden: bot was blocked by the user")] ∧
  logged run_progress_fails.2 =
    [(WARNING, "Could not update status: Forbidden: bot was blocked by the user")].
Proof. vm_compute. done. Qed.

Lemma progress_reporting_witness :
  (select is_progress_site run_progress_fails.2).*1.*1 =
    [edit_progress_0; edit_progress_5; edit_progress_95] ∧
  (WARNING, "Could not update status: Forbidden: bot was blocked by the user")
    ∈ logged run_progress_fails.2 ∧
  run_progress_fails.1 = run_delivered.1.
Proof.
  destruct (progress_reporting "temp" sample_duration
              (sample_env [edit_progress_5; edit_progress_95]
                 (ffmpeg_result 0 "" (Some (blob 2048)))) sample_update
              (two_videos (Some "telegram") (Some "video"))
              run_progress_fails.1.1 run_progress_fails.1.2 run_progress_fails.2)
    as ((total & _ & Hsel) & _ & _ & _ & _ & Hlog & Hsame & _).
  - vm_compute; reflexivity.
  - vm_compute; reflexivity.
  - split_and!.
    + rewrite Hsel. vm_compute. reflexivity.
    + apply (Hlog (Exception "Forbidden: bot was blocked by the user")).
      * vm_compute; reflexivity.
      * vm_compute; discriminate.
    + specialize (Hsame None None). rewrite <- surjective_pairing in Hsame.
      rewrite <- Hsame. vm_compute. reflexivity.
Defined.

Lemma remote_delivery_absorbs_errors_witness :
  run_remote.1.1 = inr () ∧ queue_of 7 run_remote.1.2 = empty_queue.
Proof.
  destruct (remote_delivery_absorbs_errors "temp" sample_duration
              (sample_env [] (ffmpeg_result 0 "" (Some (blob 2048)))) sample_update
              (two_videos (Some "rclone") None)
              run_remote.1.1 run_remote.1.2 run_remote.2)
    as (_ & _ & H & _).
  destruct H as (Hr & _ & Hq & _).
  - vm_compute; reflexivity.
  - vm_compute; reflexivity.
  - vm_compute; reflexivity.
  - vm_compute; discriminate.
  - by split.
Defined.

Lemma merge_paths_are_fixed_witness :
  Forall (λ x, x.1 = "temp/concat_list.txt") (written run_delivered.2) ∧
  Forall (λ x, x.1 = "temp/concat_list.txt") (written run_other_user.2) ∧
  (written run_delivered.2).*2 ≠ (written run_other_user.2).*2.
Proof.
  destruct (merge_paths_are_fixed "temp" sample_duration
              (sample_env [] (ffmpeg_result 0 "" (Some (blob 2048)))) sample_update
              (two_videos (Some "telegram") (Some "video"))
              (sample_env [] (ffmpeg_result 0 "" (Some (blob 2048)))) other_update
              (two_videos (Some "rclone") None))
    as (H1 & H2 & _).
  split_and!; [exact H1|exact H2|vm_compute; discriminate].
Defined.

(** ** [process_merge_video] at sample inputs *)








(** ** [handle_merge_callbacks] at sample inputs *)









(** ** The pipeline and the uploads at further sample runs *)







